(** * factiva/helper: a shallow embedding of [src/factiva/helper/index.js]

    The helper module of the Factiva client is a set of small functions
    over dynamically typed JavaScript values.  The embedding keeps that
    shape: one inductive type of values, the primitive operations of the
    language that the module uses (truthiness, [typeof], property lookup,
    template-literal conversion, [substring], [split], ...), an error
    monad for [throw], and then every function of the module under its
    own name, each translated line by line. *)

From Stdlib Require Import String Ascii List ZArith Bool Lia DecimalString.
Import ListNotations.

Local Open Scope string_scope.
Local Open Scope Z_scope.

(** ** Values *)

Module Js.

(** The values the helper module handles.  Numbers are the integers plus
    [NaN]; fractions, infinities, functions, symbols and bigints are not
    represented.  A string is a sequence of code units, each written as an
    [ascii]; the model is exact on ASCII text, which is what the module's
    own literals are made of.  An object is the list of its own enumerable
    properties in creation order. *)
Unset Elimination Schemes.
Inductive value : Type :=
| VUndefined
| VNull
| VBool (b : bool)
| VNum (n : Z)
| VNaN
| VStr (s : string)
| VArr (elems : list value)
| VObj (props : list (string * value)).
Set Elimination Schemes.

(** Error objects: the constructors of the language that the module calls,
    and [HttpError status message] for an error made by [createError] of
    the http-errors package, with the status and the message the error
    carries once the package has made it. *)
Inductive error : Type :=
| ReferenceError (msg : string)
| RangeError (msg : string)
| SyntaxError (msg : string)
| TypeError
| Error (msg : string)
| HttpError (status : value) (msg : string)
| Rejection (reason : value).

(** A computation either returns or throws.  For the [async] functions a
    throw is the rejection of the promise they return. *)
Inductive result (A : Type) : Type :=
| Ok (a : A)
| Throw (e : error).

Arguments Ok {A} a.
Arguments Throw {A} e.

Definition bind {A B : Type} (m : result A) (k : A -> result B) : result B :=
  match m with
  | Ok a => k a
  | Throw e => Throw e
  end.

Notation "x <- m ;; k" := (bind m (fun x => k))
  (at level 61, m at next level, right associativity).

(** [ToBoolean]. *)
Definition truthy (v : value) : bool :=
  match v with
  | VUndefined | VNull | VNaN => false
  | VBool b => b
  | VNum n => negb (n =? 0)
  | VStr s => negb (s =? "")%string
  | VArr _ | VObj _ => true
  end.

(** The [typeof] operator. *)
Definition typeof (v : value) : string :=
  match v with
  | VUndefined => "undefined"
  | VNull => "object"
  | VBool _ => "boolean"
  | VNum _ | VNaN => "number"
  | VStr _ => "string"
  | VArr _ | VObj _ => "object"
  end.

Definition isArray (v : value) : bool :=
  match v with VArr _ => true | _ => false end.

(** [v instanceof Object]. *)
Definition instanceofObject (v : value) : bool :=
  match v with VArr _ | VObj _ => true | _ => false end.

Fixpoint assoc (k : string) (ps : list (string * value)) : option value :=
  match ps with
  | [] => None
  | (k', v) :: rest => if (k =? k')%string then Some v else assoc k rest
  end.

(** Property read [v.k] for the property names this module reads (none of
    them is defined on a built-in prototype): a [TypeError] on [undefined]
    and [null], the own property of an object, [undefined] otherwise. *)
Definition getProp (v : value) (k : string) : result value :=
  match v with
  | VUndefined | VNull => Throw TypeError
  | VObj ps => Ok (match assoc k ps with Some x => x | None => VUndefined end)
  | _ => Ok VUndefined
  end.

(** The same read where it cannot throw. *)
Definition field (v : value) (k : string) : value :=
  match getProp v k with
  | Ok x => x
  | Throw _ => VUndefined
  end.

(** A destructuring default [k = d]: the default replaces [undefined] only. *)
Definition orDefault (v d : value) : value :=
  match v with VUndefined => d | _ => v end.

Definition decimal (n : Z) : string := NilZero.string_of_int (Z.to_int n).

(** [ToString], as a template literal applies it. *)
Fixpoint toStr (v : value) : string :=
  match v with
  | VUndefined => "undefined"
  | VNull => "null"
  | VBool true => "true"
  | VBool false => "false"
  | VNum n => decimal n
  | VNaN => "NaN"
  | VStr s => s
  | VArr l =>
      String.concat ","
        (map (fun x => match x with
                       | VUndefined | VNull => ""
                       | _ => toStr x
                       end) l)
  | VObj _ => "[object Object]"
  end.


(** [s.substring(start, end)]: both indices are clamped to the string and
    swapped when out of order. *)
Definition substring (s : string) (start stop : Z) : string :=
  let len := Z.of_nat (String.length s) in
  let a := Z.max 0 (Z.min start len) in
  let b := Z.max 0 (Z.min stop len) in
  let from := Z.min a b in
  let upto := Z.max a b in
  String.substring (Z.to_nat from) (Z.to_nat (upto - from)) s.

Definition isUpper (c : ascii) : bool :=
  let n := nat_of_ascii c in ((65 <=? n) && (n <=? 90))%nat.
Definition isLower (c : ascii) : bool :=
  let n := nat_of_ascii c in ((97 <=? n) && (n <=? 122))%nat.
Definition isDigit (c : ascii) : bool :=
  let n := nat_of_ascii c in ((48 <=? n) && (n <=? 57))%nat.

Fixpoint mapChars (f : ascii -> ascii) (s : string) : string :=
  match s with
  | EmptyString => EmptyString
  | String c rest => String (f c) (mapChars f rest)
  end.

(** [s.toUpperCase()] on ASCII letters; other code units are kept. *)
Definition toUpperCase (s : string) : string :=
  mapChars (fun c => if isLower c then ascii_of_nat (nat_of_ascii c - 32) else c) s.

Definition isSpace (c : ascii) : bool :=
  let n := nat_of_ascii c in
  (((9 <=? n) && (n <=? 13)) || (n =? 32) || (n =? 160))%nat.

Fixpoint trimStart (s : string) : string :=
  match s with
  | EmptyString => EmptyString
  | String c rest => if isSpace c then trimStart rest else s
  end.

Fixpoint trimEnd (s : string) : string :=
  match s with
  | EmptyString => EmptyString
  | String c rest =>
      let rest' := trimEnd rest in
      if isSpace c && (rest' =? "")%string then EmptyString else String c rest'
  end.

(** [s.trim()]. *)
Definition trim (s : string) : string := trimEnd (trimStart s).

(** [v === 'lit'] and [v === n] against a string or number literal. *)
Definition strictEqStr (v : value) (lit : string) : bool :=
  match v with VStr s => (s =? lit)%string | _ => false end.

Definition strictEqNum (v : value) (lit : Z) : bool :=
  match v with VNum n => n =? lit | _ => false end.

Definition indexKeys (n : nat) : list string :=
  map (fun i => decimal (Z.of_nat i)) (seq 0 n).

(** [Object.keys(v)]: a [TypeError] on [undefined] and [null], the own
    keys of an object, the indices of an array or a string, nothing for
    the other primitives. *)
Definition objectKeys (v : value) : result (list string) :=
  match v with
  | VUndefined | VNull => Throw TypeError
  | VObj ps => Ok (map fst ps)
  | VArr l => Ok (indexKeys (List.length l))
  | VStr s => Ok (indexKeys (String.length s))
  | VBool _ | VNum _ | VNaN => Ok []
  end.

(** [keys.includes('lit')] on an array of strings. *)
Definition includes (lit : string) (keys : list string) : bool :=
  existsb (String.eqb lit) keys.

Fixpoint mapM {A B : Type} (f : A -> result B) (l : list A) : result (list B) :=
  match l with
  | [] => Ok []
  | x :: rest => y <- f x ;; ys <- mapM f rest ;; Ok (y :: ys)
  end.

(** [s.split(sep)] with a string separator.  [splitFrom] walks the string
    with the token read so far in [cur]; [skip] counts the code units of a
    separator occurrence still to be passed over. *)
Fixpoint splitFrom (sep s : string) (skip : nat) (cur : string) : list string :=
  match s with
  | EmptyString => [cur]
  | String c rest =>
      match skip with
      | S k => splitFrom sep rest k cur
      | O =>
          if String.prefix sep s
          then cur :: splitFrom sep rest (String.length sep - 1) ""
          else splitFrom sep rest 0 (cur ++ String c "")
      end
  end.

Fixpoint codeUnits (s : string) : list string :=
  match s with
  | EmptyString => []
  | String c rest => String c "" :: codeUnits rest
  end.

Definition split (s sep : string) : list string :=
  if (sep =? "")%string then codeUnits s else splitFrom sep s 0 "".

End Js.
Import Js.

(** ** maskWord *)

(** What the specification calls an alphanumeric character: an ASCII
    digit or letter, told by its code and not by the pattern below. *)
Definition alphanumeric (c : ascii) : Prop :=
  let n := nat_of_ascii c in
  (48 <= n <= 57 \/ 65 <= n <= 90 \/ 97 <= n <= 122)%nat.

(** The character class of [/[a-z\d]/gi]. *)
Definition maskPattern (c : ascii) : bool := isLower c || isUpper c || isDigit c.

(** [s.replace(/[a-z\d]/gi, '#')]: the pattern matches one code unit at a
    time and the [g] flag replaces every match. *)
Definition replaceMasked (s : string) : string :=
  mapChars (fun c => if maskPattern c then "#"%char else c) s.

Definition maskWord (wordToMask : string) (rightPadding : option Z) : string :=
  let rightPadding := match rightPadding with Some p => p | None => 4 end in
  let len := Z.of_nat (String.length wordToMask) in
  if len <=? 4 then wordToMask
  else
    let masked := replaceMasked (substring wordToMask 0 (len - rightPadding)) in
    let unmasked := substring wordToMask (len - rightPadding) len in
    masked ++ unmasked.

(** ** validateType, validateOption *)

(** What it is for a value to be of a kind: an array for ['array'], an
    object (arrays included) for ['object'], and for any other kind name
    the value's [typeof] being that name. *)
Definition matchesKind (v kind : value) : bool :=
  match kind with
  | VStr k =>
      if (k =? "array")%string then isArray v
      else if (k =? "object")%string then instanceofObject v
      else (typeof v =? k)%string
  | _ => false
  end.

Definition validateType (varToValidate expectedType : value) (errorMessage : string)
  : result error :=
  _ <- (if strictEqStr expectedType "array" then
          if negb (isArray varToValidate) then Throw (ReferenceError errorMessage)
          else Ok tt
        else if strictEqStr expectedType "object" then
          if negb (instanceofObject varToValidate) then Throw (ReferenceError errorMessage)
          else Ok tt
        else
          if negb (strictEqStr expectedType (typeof varToValidate))
          then Throw (ReferenceError errorMessage)
          else Ok tt) ;;
  Ok (SyntaxError "Type not identified").

Definition validateOption (option : value) (validOptions : list value) : result value :=
  match option with
  | VStr s =>
      if negb (existsb (fun v => strictEqStr v (trim s)) validOptions)
      then Throw (RangeError ("Option value " ++ s
                              ++ " is not within the allowed options: "
                              ++ toStr (VArr validOptions)))
      else Ok option
  | _ => Throw TypeError
  end.

(** ** handleError *)

Definition apiKeyMessage : string := "Factiva API-Key does not exist or inactive.".
Definition unexpectedPrefix : string := "Unexpected API Error with message: ".

(** The callback of [errors.map]. *)
Definition errorLine (error : value) : result string :=
  title <- getProp error "title" ;;
  detail <- getProp error "detail" ;;
  Ok (toStr title ++ ": " ++ toStr detail).


(** [throw createError(status, message)]: what [createError] made is
    thrown; [None] stands for its refusal of the arguments, a [TypeError]. *)
Definition raise {A : Type} (made : option (value * string)) : result A :=
  match made with
  | Some (status, msg) => Throw (HttpError status msg)
  | None => Throw TypeError
  end.

(** ** multivalueToList *)

Definition nonEmpty (token : string) : bool := negb (token =? "")%string.

(** The [forEach] loop: [retVal.push(value)] for every non-empty token. *)
Definition pushNonEmpty (retVal : list string) (value : string) : list string :=
  if negb (value =? "")%string then retVal ++ [value] else retVal.

Definition multivalueToList (fieldValue : value) (sep : option string)
  : result (list string) :=
  let fieldValue := orDefault fieldValue VNull in
  let sep := match sep with Some s => s | None => "," end in
  let retVal : list string := [] in
  if negb (truthy fieldValue) || strictEqStr fieldValue "" then Ok []
  else
    match fieldValue with
    | VStr s =>
        let allVals := split s sep in
        Ok (fold_left pushNonEmpty allVals retVal)
    | _ => Throw TypeError
    end.

(** ** The world outside the module *)

(** What the module changes outside itself: the directories that exist,
    the files a write stream was opened on, and the request configurations
    handed to the transport, oldest first. *)
Record world : Type := mkWorld {
  directories : list string;
  writeStreams : list string;
  issued : list value
}.

(** Effectful code: a state and error monad over [world].  What was done
    before a throw stays done. *)
Definition M (A : Type) : Type := world -> result A * world.

Definition ret {A : Type} (a : A) : M A := fun w => (Ok a, w).
Definition throw {A : Type} (e : error) : M A := fun w => (Throw e, w).
Definition lift {A : Type} (r : result A) : M A := fun w => (r, w).

Definition bindM {A B : Type} (m : M A) (k : A -> M B) : M B :=
  fun w =>
    match m w with
    | (Ok a, w') => k a w'
    | (Throw e, w') => (Throw e, w')
    end.

Notation "x <~ m ;; k" := (bindM m (fun x => k))
  (at level 61, m at next level, right associativity).

Definition tryCatch {A : Type} (body : M A) (handler : error -> M A) : M A :=
  fun w =>
    match body w with
    | (Ok a, w') => (Ok a, w')
    | (Throw e, w') => handler e w'
    end.

(** The value a [catch (err)] clause binds: the rejection value of the
    transport, or an error object of the language, which has no [response]
    property. *)
Definition caught (e : error) : value :=
  match e with
  | Rejection v => v
  | _ => VObj []
  end.

(** [existsSync(path)] and [mkdirSync(path)] of [fs], for a path whose
    parent directory exists. *)
Definition existsSync (path : value) : M bool :=
  fun w =>
    match path with
    | VStr p => (Ok (existsb (String.eqb p) (directories w)), w)
    | _ => (Ok false, w)
    end.

Definition mkdirSync (path : value) : M unit :=
  fun w =>
    match path with
    | VStr p => (Ok tt, mkWorld (directories w ++ [p]) (writeStreams w) (issued w))
    | _ => (Throw TypeError, w)
    end.

(** [createWriteStream(path)] of [fs]: a path that is not a string is
    refused with a [TypeError]. *)
Definition createWriteStream (path : value) : M unit :=
  fun w =>
    match path with
    | VStr p => (Ok tt, mkWorld (directories w) (writeStreams w ++ [p]) (issued w))
    | _ => (Throw TypeError, w)
    end.

(** The bindings of the module scope: the imports at the top of the file
    and the functions the file declares. *)
Definition moduleScope : list string :=
  [ "axios"; "config"; "existsSync"; "mkdirSync"; "createWriteStream";
    "createError"; "REQUEST_DEFAULT_TYPE"; "REQUEST_STREAM_TYPE";
    "API_EXTRACTION_FILE_FORMATS"; "TIMESTAMP_FIELDS";
    "MULTIVALUE_FIELDS_SPACE"; "MULTIVALUE_FIELDS_COMMA";
    "loadEnvVariable"; "loadGenericEnvVariable"; "validateType";
    "validateOption"; "maskWord"; "handleError"; "getProxyConfiguration";
    "sendRequest"; "apiSendRequest"; "downloadFile"; "getCurrentDate";
    "isotsToMsts"; "formatTimestamps"; "multivalueToList";
    "formatMultivalues"; "createPathIfNotExist"; "sleep" ].

(** Reading an identifier that neither the module nor the language binds
    throws a [ReferenceError]. *)
Definition resolveIdentifier (name : string) : result unit :=
  if existsb (String.eqb name) moduleScope then Ok tt
  else Throw (ReferenceError (name ++ " is not defined")).

Inductive signal : Type := StreamEnd | StreamError.

(** ** Records: formatTimestamps, formatMultivalues, getCurrentDate *)

(** [message[k] = v] on the properties of an object: an existing property
    keeps its place, a new one goes last. *)
Fixpoint setProp (ps : list (string * value)) (k : string) (v : value)
  : list (string * value) :=
  match ps with
  | [] => [(k, v)]
  | (k', x) :: rest =>
      if (k =? k')%string then (k', v) :: rest else (k', x) :: setProp rest k v
  end.

(** [t] holds an occurrence of [sep]. *)
Definition occurs (sep t : string) : Prop := exists a b, t = a ++ sep ++ b.


Section Formatting.

(** The field lists the module imports from [../core/constants]. *)
Variable TIMESTAMP_FIELDS : list string.
Variable MULTIVALUE_FIELDS_SPACE : list string.
Variable MULTIVALUE_FIELDS_COMMA : list string.

(** [new Date(isodate).getTime() / 1000], the body of [isotsToMsts]: a
    number that is in general not an integer. *)
Variable epochSeconds : value -> value.

(** [Date.now() / 1000] at its n-th evaluation. *)
Variable clockSeconds : nat -> value.

Definition isotsToMsts (isodate : value) : value := epochSeconds isodate.

(** The [forEach] of [formatTimestamps] over a message that is an object.
    [reads] counts the evaluations of [Date.now()] so far. *)
Fixpoint stampFields (fields : list string) (message : list (string * value))
  (reads : nat) : list (string * value) * nat :=
  match fields with
  | [] => (message, reads)
  | timeName :: rest =>
      let message :=
        if includes timeName (map fst message)
        then setProp message timeName (isotsToMsts (field (VObj message) timeName))
        else message in
      let message := setProp message "delivery_datetime" (clockSeconds reads) in
      stampFields rest message (S reads)
  end.

Definition formatTimestamps (message : list (string * value)) (reads : nat)
  : list (string * value) * nat :=
  stampFields TIMESTAMP_FIELDS message reads.

(** One [forEach] of [formatMultivalues].  The message is changed in
    place, so what was assigned before a throw stays assigned: the second
    component is the message as the loop leaves it. *)
Fixpoint splitFields (sep : option string) (fields : list string)
  (message : list (string * value)) : result unit * list (string * value) :=
  match fields with
  | [] => (Ok tt, message)
  | name :: rest =>
      if includes name (map fst message) then
        match multivalueToList (field (VObj message) name) sep with
        | Ok tokens =>
            splitFields sep rest (setProp message name (VArr (map VStr tokens)))
        | Throw e => (Throw e, message)
        end
      else splitFields sep rest message
  end.

Definition formatMultivalues (message : list (string * value))
  : result unit * list (string * value) :=
  match splitFields (Some " ") MULTIVALUE_FIELDS_SPACE message with
  | (Ok _, message) => splitFields None MULTIVALUE_FIELDS_COMMA message
  | (Throw e, message) => (Throw e, message)
  end.

End Formatting.

(** ** A small installation to run the module on *)

Module Demo.

Definition config : value :=
  VObj [("userKey", VStr "k-0123456789");
        ("proxy", VObj [("use", VBool true); ("protocol", VStr "https");
                        ("host", VStr "proxy.local"); ("port", VNum 8080);
                        ("auth", VObj [("username", VStr "demo");
                                       ("password", VStr "demo")])])].

Definition noProxy : value :=
  VObj [("userKey", VStr "k-0123456789");
        ("proxy", VObj [("use", VBool false); ("auth", VObj [])])].

Definition formats : list value := [VStr "avro"; VStr "json"; VStr "csv"].

(** [JSON.parse] on the three texts used below. *)
Definition parse (text : string) : value + string :=
  if (text =? "null")%string then inl VNull
  else if (text =? "{}")%string then inl (VObj [])
  else if (text =? "[1]")%string then inl (VArr [VNum 1])
  else inr "Unexpected token".

Definition okResponse : value :=
  VObj [("status", VNum 200); ("statusText", VStr "OK"); ("data", VObj [])].

Definition accepting (request : value) : value + value := inl okResponse.

Definition rejecting (err : value) (request : value) : value + value := inr err.


Definition noStream (body : value) : option signal := None.

(** The status codes the http-errors package knows by name. *)
Definition knownStatus (n : Z) : bool :=
  existsb (Z.eqb n)
    [100; 101; 102; 103; 200; 201; 202; 203; 204; 205; 206; 207; 208; 226;
     300; 301; 302; 303; 304; 305; 307; 308;
     400; 401; 402; 403; 404; 405; 406; 407; 408; 409; 410; 411; 412; 413;
     414; 415; 416; 417; 418; 421; 422; 423; 424; 425; 426; 428; 429; 431;
     451; 500; 501; 502; 503; 504; 505; 506; 507; 508; 509; 510; 511].

(** [createError(status, message)] as http-errors makes it of a number: a
    status it does not know and that is outside 400..599 becomes 500.  A
    first argument that is not a number leaves the status at the
    package's default, 500; [undefined] and booleans are refused. *)
Definition createError (status : value) (msg : string) : option (value * string) :=
  match status with
  | VNum n =>
      Some (VNum (if negb (knownStatus n) && ((n <? 400) || (600 <=? n))
                  then 500 else n), msg)
  | VNaN => Some (VNaN, msg)
  | VUndefined | VBool _ => None
  | VNull | VStr _ | VArr _ | VObj _ => Some (VNum 500, msg)
  end.


(** The configuration the test suite sets up before each case: the proxy
    block with [use] and the two credentials assigned. *)
Definition testConfig (use : bool) (username password : string) : value :=
  VObj [("userKey", VStr "k-0123456789");
        ("proxy", VObj [("use", VBool use); ("protocol", VStr "https");
                        ("host", VStr "proxy.local"); ("port", VNum 8080);
                        ("auth", VObj [("username", VStr username);
                                       ("password", VStr password)])])].

Definition endpoint : value := VStr "https://api.dowjones.com/alpha/extractions".
Definition userKey : value := VObj [("user-key", VStr "k-0123456789")].

Definition pathJoin (dir name : value) : result value :=
  Ok (VStr (toStr dir ++ "/" ++ toStr name)).

Definition clock : string := "2024-01-01T00:00:00.000Z".

Definition emptyWorld : world := mkWorld [] [] [].

(** A transport that fails before any response arrives. *)
Definition networkError : value :=
  VObj [("message", VStr "connect ECONNREFUSED"); ("code", VStr "ECONNREFUSED")].

Definition ended (body : value) : option signal := Some StreamEnd.
Definition broken (body : value) : option signal := Some StreamError.

Definition timestampFields : list string :=
  ["publication_datetime"; "modification_datetime"; "ingestion_datetime"].
Definition spaceFields : list string := ["company_codes"; "subject_codes"].
Definition commaFields : list string := ["region_of_origin"].

Definition article : list (string * value) :=
  [("an", VStr "DJDN000020240101"); ("company_codes", VStr "aapl  msft ");
   ("region_of_origin", VStr "NAMZ,USA"); ("publication_datetime", VStr "2024-01-01T00:00:00Z")].

Definition seconds (isodate : value) : value :=
  if strictEqStr isodate "2024-01-01T00:00:00Z" then VNum 1704067200 else VNaN.

Definition ticking (n : nat) : value := VNum (1704070000 + Z.of_nat n).

End Demo.

(** ** The module, over its imports *)

Section Helper.

Set Default Proof Using "Type".

(** The process-wide configuration object of the config package. *)
Variable config : value.

(** The constants the module imports from [../core/constants]. *)
Variable REQUEST_DEFAULT_TYPE : string.
Variable REQUEST_STREAM_TYPE : string.
Variable API_EXTRACTION_FILE_FORMATS : list value.

(** [JSON.parse]: the parsed value, or the message of the [SyntaxError]. *)
Variable JSON_parse : string -> value + string.

(** The transport, [axios(request)]: the response it resolves with, or the
    error it rejects with. *)
Variable axios : value -> value + value.

(** The body of a streamed response: the signal it emits, [None] when the
    body is not a stream. *)
Variable bodySignal : value -> option signal.

(** [createError(status, message)] of the http-errors package: the status
    and the message of the error it returns, [None] when it refuses its
    arguments with a [TypeError]. *)
Variable createError : value -> string -> option (value * string).

(** [join] of Node's path module and the clock behind
    [new Date().toISOString()]. *)
Variable path_join : value -> value -> result value.
Variable now : string.

(** Drops the imports a statement does not mention, so that a proof
    cannot come to depend on them. *)
Ltac unused :=
  try clear now; try clear path_join; try clear createError;
  try clear bodySignal; try clear axios;
  try clear JSON_parse; try clear API_EXTRACTION_FILE_FORMATS;
  try clear REQUEST_STREAM_TYPE; try clear REQUEST_DEFAULT_TYPE; try clear config.

Definition loadEnvVariable (configKey : string) : result value :=
  tmpVal <- getProp config configKey ;;
  if negb (truthy tmpVal)
  then Throw (ReferenceError ("Environment Variable " ++ configKey ++ " not found!"))
  else Ok tmpVal.

Definition loadGenericEnvVariable (envVarName : string) (defaultValue : value) : value :=
  match loadEnvVariable envVarName with
  | Ok v => v
  | Throw _ => defaultValue
  end.

(** The [try] block assigns [options] before [Object.keys(auth)] can
    throw, so a throw there leaves the assigned object in place. *)
Definition getProxyConfiguration : value :=
  let options := VNull in
  match loadEnvVariable "proxy" with
  | Throw _ => options
  | Ok block =>
      match
        (use <- getProp block "use" ;;
         protocol <- getProp block "protocol" ;;
         host <- getProp block "host" ;;
         port <- getProp block "port" ;;
         auth <- getProp block "auth" ;;
         Ok (orDefault use (VBool false), orDefault protocol (VStr ""),
             orDefault host (VStr ""), orDefault port (VStr ""),
             orDefault auth (VObj [])))
      with
      | Throw _ => options
      | Ok (use, protocol, host, port, auth) =>
          if truthy use then
            let options :=
              VObj [("protocol", protocol); ("host", host); ("port", port)] in
            match objectKeys auth with
            | Throw _ => options
            | Ok keys =>
                if includes "username" keys && includes "password" keys
                then VObj [("protocol", protocol); ("host", host); ("port", port);
                           ("auth", auth)]
                else options
            end
          else options
      end
  end.

Definition handleError (err : value) : result value :=
  response <- getProp err "response" ;;
  status <- getProp response "status" ;;
  if strictEqNum status 403 then raise (createError (VNum 403) apiKeyMessage)
  else
    data <- getProp response "data" ;;
    errors <- getProp data "errors" ;;
    if truthy errors then
      match errors with
      | VArr entries =>
          lines <- mapM errorLine entries ;;
          let errors := String.concat "," lines in
          statusText <- getProp response "statusText" ;;
          raise (createError status
                   (unexpectedPrefix ++ toStr statusText ++ ": " ++ errors))
      | _ => Throw TypeError
      end
    else
      statusText <- getProp response "statusText" ;;
      raise (createError status (unexpectedPrefix ++ toStr statusText ++ ".")).

(** [await axios(request)]. *)
Definition awaitAxios (request : value) : M value :=
  fun w =>
    let w' := mkWorld (directories w) (writeStreams w) (issued w ++ [request]) in
    match axios request with
    | inl response => (Ok response, w')
    | inr err => (Throw (Rejection err), w')
    end.

(** The first half of [sendRequest], up to the [try]: the destructured
    parameter, the two checks and the request configuration.  It gives the
    configuration with the response type and the file name in force. *)
Definition buildRequest (options : value) : result (value * value * value) :=
  method <- getProp options "method" ;;
  endpointUrl <- getProp options "endpointUrl" ;;
  payload <- getProp options "payload" ;;
  headers <- getProp options "headers" ;;
  qsParams <- getProp options "qsParams" ;;
  responseType <- getProp options "responseType" ;;
  fileName <- getProp options "fileName" ;;
  let responseType := orDefault responseType (VStr REQUEST_DEFAULT_TYPE) in
  let fileName := orDefault fileName (VStr "./tmp.csv") in
  if strictEqStr method "GET" && truthy qsParams
     && negb (typeof qsParams =? "object")%string
  then Throw (ReferenceError "Unexpected qsParams value")
  else
    data <- (if strictEqStr method "POST" && truthy payload then
               if (typeof payload =? "object")%string then Ok payload
               else
                 match payload with
                 | VStr s =>
                     match JSON_parse s with
                     | inl v => Ok v
                     | inr msg => Throw (SyntaxError msg)
                     end
                 | _ => Throw (Error "Unexpected payload value")
                 end
             else Ok VUndefined) ;;
    let proxy := getProxyConfiguration in
    let params := qsParams in
    let request :=
      VObj ([("method", method); ("url", endpointUrl)]
            ++ (if truthy params then [("params", params)] else [])
            ++ (if truthy data then [("data", data)] else [])
            ++ (if truthy headers then [("headers", headers)] else [])
            ++ (if truthy proxy then [("proxy", proxy)] else [])
            ++ [("responseType", responseType)]) in
    Ok (request, responseType, fileName).

(** The second half: the [try] and its [catch].  The promise that the
    stream branch returns settles after the [try] is left, so its rejection
    does not reach the [catch]. *)
Definition dispatch (request responseType fileName : value) : M value :=
  settled <~ tryCatch
    (if strictEqStr responseType REQUEST_STREAM_TYPE then
       _ <~ createWriteStream fileName ;;
       response <~ awaitAxios request ;;
       body <~ lift (getProp response "data") ;;
       match bodySignal body with
       | None => throw TypeError
       | Some StreamEnd => ret (Ok VUndefined)
       | Some StreamError => ret (Throw (Rejection VUndefined))
       end
     else
       response <~ awaitAxios request ;;
       ret (Ok response))
    (fun e =>
       let err := caught e in
       _ <~ lift (handleError err) ;;
       ret (Ok err)) ;;
  lift settled.

Definition sendRequest (options : value) : M value :=
  built <~ lift (buildRequest options) ;;
  let '(request, responseType, fileName) := built in
  dispatch request responseType fileName.

Definition missingHeaders : error :=
  ReferenceError "Headers for Factiva requests cannot be empty".
Definition unexpectedHeaders : error := ReferenceError "Unexpected headers value".
Definition unexpectedMethod : error := ReferenceError "Unexpected method value".

(** The methods [apiSendRequest] lets through. *)
Definition supported (methUpper : string) : Prop :=
  methUpper = "POST" \/ methUpper = "GET" \/ methUpper = "DELETE".

(** The object literal that [apiSendRequest] passes on. *)
Definition forwarded (methUpper : string)
  (endpointUrl headers qsParams payload responseType fileName : value) : value :=
  VObj [("method", VStr methUpper); ("endpointUrl", endpointUrl);
        ("headers", headers); ("params", qsParams);
        ("payload", payload); ("responseType", responseType);
        ("fileName", fileName)].

Definition apiSendRequest (options : value) : M value :=
  method <~ lift (getProp options "method") ;;
  endpointUrl <~ lift (getProp options "endpointUrl") ;;
  headers <~ lift (getProp options "headers") ;;
  qsParams <~ lift (getProp options "qsParams") ;;
  payload <~ lift (getProp options "payload") ;;
  responseType <~ lift (getProp options "responseType") ;;
  fileName <~ lift (getProp options "fileName") ;;
  let headers := orDefault headers VNull in
  let qsParams := orDefault qsParams VNull in
  let payload := orDefault payload VNull in
  let responseType := orDefault responseType (VStr REQUEST_DEFAULT_TYPE) in
  let fileName := orDefault fileName VNull in
  if negb (truthy headers) then throw missingHeaders
  else if negb (typeof headers =? "object")%string then throw unexpectedHeaders
  else
    match method with
    | VStr m =>
        let methUpper := toUpperCase m in
        if negb (methUpper =? "POST")%string && negb (methUpper =? "GET")%string
           && negb (methUpper =? "DELETE")%string
        then throw unexpectedMethod
        else
          response <~ sendRequest
            (forwarded methUpper endpointUrl headers qsParams payload
               responseType fileName) ;;
          ret response
    | _ => throw TypeError
    end.

Definition createPathIfNotExist (path : value) : M unit :=
  found <~ existsSync path ;;
  if negb found then mkdirSync path else ret tt.

(** The module calls [join] without importing it. *)
Definition downloadFile
  (fileUrl headers fileName fileExtension toSavePath addTimestamp : value) : M value :=
  let addTimestamp := orDefault addTimestamp (VBool false) in
  _ <~ lift (validateOption fileExtension API_EXTRACTION_FILE_FORMATS) ;;
  _ <~ createPathIfNotExist toSavePath ;;
  let fileName :=
    if truthy addTimestamp
    then let timeStamp := now in VStr (toStr fileName ++ "-" ++ timeStamp)
    else fileName in
  _ <~ lift (resolveIdentifier "join") ;;
  localFileName <~ lift (path_join toSavePath
                           (VStr (toStr fileName ++ "." ++ toStr fileExtension))) ;;
  _ <~ sendRequest
    (VObj [("method", VStr "GET"); ("endpointUrl", fileUrl); ("headers", headers);
           ("responseType", VStr REQUEST_STREAM_TYPE);
           ("fileName", localFileName)]) ;;
  ret localFileName.


(** * Properties *)

(** ** Strings *)

Lemma length_mapChars (f : ascii -> ascii) (s : string) :
  String.length (mapChars f s) = String.length s.
Proof. induction s as [|c s IH]; simpl; congruence. Qed.

Lemma get_mapChars (f : ascii -> ascii) (s : string) (i : nat) :
  String.get i (mapChars f s) = option_map f (String.get i s).
Proof.
  revert i; induction s as [|c s IH]; intros i; simpl.
  - reflexivity.
  - destruct i; simpl; auto.
Qed.

Lemma length_substring (s : string) (n m : nat) :
  (n + m <= String.length s)%nat -> String.length (String.substring n m s) = m.
Proof.
  revert n m; induction s as [|c s IH]; intros n m H; simpl in *.
  - destruct n, m; simpl; lia.
  - destruct n as [|n].
    + destruct m as [|m]; simpl; auto.
      f_equal. apply IH. lia.
    + apply IH. lia.
Qed.

Lemma get_append (s1 s2 : string) (i : nat) :
  String.get i (s1 ++ s2) =
  if (i <? String.length s1)%nat then String.get i s1
  else String.get (i - String.length s1) s2.
Proof.
  revert i; induction s1 as [|c s1 IH]; intros i; simpl.
  - now rewrite Nat.sub_0_r.
  - destruct i as [|i]; simpl; auto.
Qed.

Lemma get_beyond (s : string) (i : nat) :
  (String.length s <= i)%nat -> String.get i s = None.
Proof.
  revert i; induction s as [|c s IH]; intros i H; simpl in *.
  - reflexivity.
  - destruct i as [|i]; [lia|]. apply IH; lia.
Qed.

Lemma length_append (s1 s2 : string) :
  String.length (s1 ++ s2) = (String.length s1 + String.length s2)%nat.
Proof. induction s1 as [|c s1 IH]; simpl; congruence. Qed.

(** Inside the string [s.substring] is the library's [substring]. *)
Lemma substring_in_range (s : string) (a b : nat) :
  (a <= b <= String.length s)%nat ->
  Js.substring s (Z.of_nat a) (Z.of_nat b) = String.substring a (b - a) s.
Proof.
  intros H. unfold Js.substring.
  replace (Z.max 0 (Z.min (Z.of_nat a) (Z.of_nat (String.length s))))
    with (Z.of_nat a) by lia.
  replace (Z.max 0 (Z.min (Z.of_nat b) (Z.of_nat (String.length s))))
    with (Z.of_nat b) by lia.
  replace (Z.min (Z.of_nat a) (Z.of_nat b)) with (Z.of_nat a) by lia.
  replace (Z.max (Z.of_nat a) (Z.of_nat b)) with (Z.of_nat b) by lia.
  f_equal; lia.
Qed.

(** The class [[a-z\d]] under the [i] flag is the ASCII letters and digits. *)
Lemma maskPattern_spec (c : ascii) :
  maskPattern c = true <->
  let n := nat_of_ascii c in
  (97 <= n <= 122 \/ 65 <= n <= 90 \/ 48 <= n <= 57)%nat.
Proof.
  unused.
  unfold maskPattern, isLower, isUpper, isDigit; cbv zeta.
  rewrite !orb_true_iff, !andb_true_iff, !Nat.leb_le. tauto.
Qed.

(** The shape of the result on a word longer than four code units. *)
Lemma maskWord_long (word : string) :
  (4 < String.length word)%nat ->
  maskWord word None =
  replaceMasked (String.substring 0 (String.length word - 4) word)
  ++ String.substring (String.length word - 4) 4 word.
Proof.
  intros H. unfold maskWord.
  destruct (Z.leb_spec (Z.of_nat (String.length word)) 4) as [Hle|_]; [lia|].
  replace (Z.of_nat (String.length word) - 4)
    with (Z.of_nat (String.length word - 4)) by lia.
  change 0 with (Z.of_nat 0).
  rewrite !substring_in_range by lia.
  rewrite Nat.sub_0_r.
  replace (String.length word - (String.length word - 4))%nat with 4%nat by lia.
  reflexivity.
Qed.

(** C8. For a word longer than four code units, [maskWord] with the default
    padding keeps the length, keeps the last four code units as they are and
    replaces, in front of them, every ASCII letter and every digit by ['#']
    and leaves every other code unit as it is; a word of at most four code
    units is returned as it is. *)
Theorem maskWord_spec (word : string) :
  ((4 < String.length word)%nat ->
   String.length (maskWord word None) = String.length word /\
   (forall i, (String.length word - 4 <= i)%nat ->
              String.get i (maskWord word None) = String.get i word) /\
   (forall i c, (i < String.length word - 4)%nat ->
                String.get i word = Some c ->
                (alphanumeric c ->
                 String.get i (maskWord word None) = Some "#"%char) /\
                (~ alphanumeric c ->
                 String.get i (maskWord word None) = Some c))) /\
  ((String.length word <= 4)%nat -> maskWord word None = word).
Proof.
  split.
  - intros H. rewrite (maskWord_long word H).
    set (n := (String.length word - 4)%nat).
    assert (Hn : String.length (replaceMasked (String.substring 0 n word)) = n).
    { unfold replaceMasked. rewrite length_mapChars.
      apply length_substring. subst n; lia. }
    split; [|split].
    + rewrite length_append, Hn, length_substring by (subst n; lia).
      subst n; lia.
    + intros i Hi. rewrite get_append, Hn.
      destruct (Nat.ltb_spec i n) as [Hlt|_]; [lia|].
      destruct (Nat.lt_ge_cases (i - n) 4) as [H4|H4].
      * rewrite substring_correct1 by exact H4. f_equal. lia.
      * rewrite substring_correct2 by exact H4.
        symmetry. apply get_beyond. subst n; lia.
    + intros i c Hi Hc.
      assert (Hget : String.get i (replaceMasked (String.substring 0 n word)
                                   ++ String.substring n 4 word)
                     = Some (if maskPattern c then "#"%char else c)).
      { rewrite get_append, Hn.
        destruct (Nat.ltb_spec i n) as [_|Hge]; [|lia].
        unfold replaceMasked. rewrite get_mapChars.
        rewrite (substring_correct1 word 0 n i Hi).
        rewrite Nat.add_0_r, Hc. reflexivity. }
      rewrite Hget. split.
      * intros Ha.
        assert (Hm : maskPattern c = true).
        { apply maskPattern_spec. unfold alphanumeric in Ha. cbv zeta in *. lia. }
        now rewrite Hm.
      * intros Hna.
        destruct (maskPattern c) eqn:Hm; [|reflexivity].
        exfalso. apply Hna. apply maskPattern_spec in Hm.
        unfold alphanumeric. cbv zeta in *. lia.
  - intros H. unfold maskWord.
    destruct (Z.leb_spec (Z.of_nat (String.length word)) 4) as [_|Hgt]; [reflexivity|lia].
Qed.

Lemma maskWord_spec_witness :
  String.get 0 (maskWord "Ab-9efghijkl" None) = Some "#"%char /\
  String.get 3 (maskWord "Ab-9efghijkl" None) = Some "#"%char /\
  String.get 2 (maskWord "Ab-9efghijkl" None) = Some "-"%char /\
  String.get 8 (maskWord "Ab-9efghijkl" None) = Some "i"%char /\
  String.length (maskWord "Ab-9efghijkl" None) = 12%nat /\
  maskWord "key" None = "key".
Proof.
  destruct (proj1 (maskWord_spec "Ab-9efghijkl") ltac:(simpl; lia))
    as (Hlen & Hkept & Hmasked).
  split; [|split; [|split; [|split; [|split]]]].
  - apply (proj1 (Hmasked 0%nat "A"%char ltac:(simpl; lia) eq_refl)).
    unfold alphanumeric. cbn. lia.
  - apply (proj1 (Hmasked 3%nat "9"%char ltac:(simpl; lia) eq_refl)).
    unfold alphanumeric. cbn. lia.
  - apply (proj2 (Hmasked 2%nat "-"%char ltac:(simpl; lia) eq_refl)).
    unfold alphanumeric. cbn. lia.
  - rewrite (Hkept 8%nat ltac:(simpl; lia)). reflexivity.
  - exact Hlen.
  - apply (proj2 (maskWord_spec "key")). simpl; lia.
Defined.

(** ** multivalueToList *)

(** The [forEach] loop that pushes the non-empty tokens is a filter. *)
Lemma fold_pushNonEmpty (tokens acc : list string) :
  fold_left pushNonEmpty tokens acc = (acc ++ filter nonEmpty tokens)%list.
Proof.
  revert acc; induction tokens as [|t tokens IH]; intros acc; simpl.
  - now rewrite app_nil_r.
  - rewrite IH. unfold pushNonEmpty, nonEmpty.
    destruct (t =? "")%string; simpl.
    + reflexivity.
    + now rewrite <- app_assoc.
Qed.

Lemma append_nil_r (s : string) : s ++ "" = s.
Proof. induction s as [|c s IH]; simpl; congruence. Qed.

Lemma append_assoc (a b c : string) : (a ++ b) ++ c = a ++ (b ++ c).
Proof. induction a as [|x a IH]; simpl; congruence. Qed.

Lemma prefix_append (p s : string) :
  String.prefix p s = true -> exists rest, s = p ++ rest.
Proof.
  revert s; induction p as [|c p IH]; intros s H.
  - exists s. reflexivity.
  - destruct s as [|d s]; simpl in H; [discriminate|].
    destruct (ascii_dec c d) as [->|]; [|discriminate].
    destruct (IH s H) as [rest ->]. exists rest. reflexivity.
Qed.

(** Passing over the rest of a separator occurrence. *)
Lemma splitFrom_skip (sep t s cur : string) :
  splitFrom sep (t ++ s) (String.length t) cur = splitFrom sep s 0 cur.
Proof. induction t as [|c t IH]; simpl; auto. Qed.

Lemma splitFrom_not_nil (sep s : string) (skip : nat) (cur : string) :
  splitFrom sep s skip cur <> [].
Proof.
  revert skip cur; induction s as [|c s IH]; intros skip cur; cbn [splitFrom].
  - discriminate.
  - destruct skip as [|k].
    + destruct (String.prefix sep (String c s)); [discriminate | apply IH].
    + apply IH.
Qed.

Lemma concat_cons (sep x : string) (l : list string) :
  l <> [] -> String.concat sep (x :: l) = x ++ sep ++ String.concat sep l.
Proof. destruct l; [congruence | reflexivity]. Qed.

(** Joining the tokens with the separator gives the string back: the
    split loses nothing and invents nothing. *)
Lemma splitFrom_concat (sep : string) :
  sep <> "" ->
  forall (n : nat) (s cur : string),
    (String.length s <= n)%nat ->
    String.concat sep (splitFrom sep s 0 cur) = cur ++ s.
Proof.
  intros Hsep. induction n as [|n IH]; intros s cur Hn.
  - destruct s; simpl in *; [now rewrite append_nil_r | lia].
  - destruct s as [|c s]; [simpl; now rewrite append_nil_r|].
    cbn [splitFrom].
    destruct (String.prefix sep (String c s)) eqn:Hp.
    + destruct (prefix_append _ _ Hp) as [rest Hrest].
      destruct sep as [|d sep']; [congruence|].
      simpl in Hrest. injection Hrest as -> ->.
      cbn [String.length]. rewrite Nat.sub_succ, Nat.sub_0_r.
      rewrite splitFrom_skip.
      rewrite concat_cons by apply splitFrom_not_nil.
      rewrite IH.
      * reflexivity.
      * simpl in Hn. rewrite length_append in Hn. lia.
    + rewrite IH by (simpl in Hn; lia).
      rewrite append_assoc. reflexivity.
Qed.

Lemma split_concat (s sep : string) :
  sep <> "" -> String.concat sep (split s sep) = s.
Proof.
  intros Hsep. unfold split.
  destruct (String.eqb_spec sep ""); [congruence|].
  now rewrite (splitFrom_concat sep Hsep (String.length s) s "").
Qed.

(** C9. [multivalueToList] gives the empty list for [null], for an omitted
    argument and for the empty string; for a non-empty string it gives, in
    order, the non-empty tokens of the split at the separator, which is
    [','] when none is passed; so ['a,,b'] gives [['a','b']]. *)
Theorem multivalueToList_spec :
  (forall sep, multivalueToList VNull sep = Ok []) /\
  (forall sep, multivalueToList VUndefined sep = Ok []) /\
  (forall sep, multivalueToList (VStr "") sep = Ok []) /\
  (forall s sep, s <> "" ->
     multivalueToList (VStr s) sep
     = Ok (filter nonEmpty
             (split s (match sep with Some x => x | None => "," end)))) /\
  multivalueToList (VStr "a,,b") None = Ok ["a"; "b"].
Proof.
  repeat split; try reflexivity.
  intros s sep Hs. unfold multivalueToList. simpl.
  destruct (String.eqb_spec s ""); [congruence|]. simpl.
  now rewrite fold_pushNonEmpty.
Qed.

Lemma multivalueToList_spec_witness :
  "x y  z" <> "" /\
  multivalueToList (VStr "x y  z") (Some " ") = Ok ["x"; "y"; "z"].
Proof.
  split; [discriminate|].
  apply (proj1 (proj2 (proj2 (proj2 multivalueToList_spec))) "x y  z" (Some " ")).
  discriminate.
Defined.

(** ** validateType *)

(** C10. [validateType] does not throw on a value of the expected kind and
    returns a [SyntaxError] value with the message 'Type not identified',
    never the value it validated; on any other value, and only then, it
    throws a [ReferenceError] with the message it was given. *)
Theorem validateType_spec (v kind : value) (msg : string) :
  (matchesKind v kind = true ->
   validateType v kind msg = Ok (SyntaxError "Type not identified")) /\
  (matchesKind v kind = false ->
   validateType v kind msg = Throw (ReferenceError msg)) /\
  (forall e, validateType v kind msg = Throw e ->
             e = ReferenceError msg /\ matchesKind v kind = false).
Proof.
  assert (H : validateType v kind msg =
              if matchesKind v kind then Ok (SyntaxError "Type not identified")
              else Throw (ReferenceError msg)).
  { unfold validateType, matchesKind, strictEqStr.
    destruct kind as [| |b|n| |k|l|ps]; try reflexivity;
      try (destruct (typeof v); reflexivity).
    destruct (k =? "array")%string eqn:Ha.
    - destruct (isArray v); reflexivity.
    - destruct (k =? "object")%string eqn:Ho.
      + destruct (instanceofObject v); reflexivity.
      + rewrite String.eqb_sym. destruct (typeof v =? k)%string; reflexivity. }
  rewrite H. destruct (matchesKind v kind); repeat split; try congruence;
    intros e He; inversion He; auto.
Qed.

Lemma validateType_spec_witness :
  matchesKind (VArr [VNum 1]) (VStr "array") = true /\
  validateType (VArr [VNum 1]) (VStr "array") "not an array"
  = Ok (SyntaxError "Type not identified").
Proof.
  split; [reflexivity|].
  apply (proj1 (validateType_spec (VArr [VNum 1]) (VStr "array") "not an array")).
  reflexivity.
Defined.

(** ** handleError and the catch of the dispatcher *)


Lemma mapM_errorLine_throws (entries : list value) (e : error) :
  mapM errorLine entries = Throw e -> e = TypeError.
Proof.
  induction entries as [|entry entries IH]; cbn [mapM]; [discriminate|].
  unfold errorLine at 1.
  destruct entry; cbn; try (intros H; inversion H; reflexivity);
    destruct (mapM errorLine entries); cbn; intros H; inversion H; subst; auto.
Qed.

Lemma raise_throws (made : option (value * string)) :
  exists e, @raise value made = Throw e /\
            (e = TypeError \/ exists status msg, e = HttpError status msg).
Proof. destruct made as [[status msg]|]; cbn; eauto 6. Qed.

(** What [handleError] may throw, and that it always throws. *)
Lemma handleError_throws (err : value) :
  exists e, handleError err = Throw e /\
            (e = TypeError \/ exists status msg, e = HttpError status msg).
Proof.
  unfold handleError.
  destruct (getProp err "response") as [response|e] eqn:Hr; cbn [bind].
  2:{ exists e. split; auto. left. destruct err; cbn in Hr; congruence. }
  destruct (getProp response "status") as [status|e] eqn:Hs; cbn [bind].
  2:{ exists e. split; auto. left. destruct response; cbn in Hs; congruence. }
  destruct (strictEqNum status 403); [apply raise_throws|].
  destruct (getProp response "data") as [data|e] eqn:Hd; cbn [bind].
  2:{ exists e. split; auto. left. destruct response; cbn in Hd; congruence. }
  destruct (getProp data "errors") as [errors|e] eqn:He; cbn [bind].
  2:{ exists e. split; auto. left. destruct data; cbn in He; congruence. }
  destruct (getProp response "statusText") as [statusText|e] eqn:Ht; cbn [bind].
  2:{ destruct response; cbn in Hs, Ht; congruence. }
  destruct (truthy errors); [|apply raise_throws].
  destruct errors; eauto.
  destruct (mapM errorLine elems) as [lines|e] eqn:Hm; cbn [bind];
    [apply raise_throws|].
  exists e. split; auto. left. eapply mapM_errorLine_throws; eauto.
Qed.

(** A rejection of the transport reaches [handleError], in either
    response mode, once the write stream could be opened. *)
Lemma dispatch_rejected (request responseType fileName err : value) (w : world) :
  axios request = inr err ->
  (strictEqStr responseType REQUEST_STREAM_TYPE = true ->
   exists path, fileName = VStr path) ->
  fst (dispatch request responseType fileName w) = handleError err.
Proof.
  intros Hrej Hfile.
  destruct (handleError_throws err) as (e & He & _).
  unfold dispatch, bindM, tryCatch, awaitAxios, lift, ret.
  destruct (strictEqStr responseType REQUEST_STREAM_TYPE).
  - destruct (Hfile eq_refl) as [path ->]. cbn.
    rewrite Hrej. cbn. rewrite He. reflexivity.
  - rewrite Hrej. cbn. rewrite He. reflexivity.
Qed.



(** ** sendRequest *)

Lemma getProp_throws (v : value) (k : string) (e : error) :
  getProp v k = Throw e -> e = TypeError.
Proof. destruct v; cbn; congruence. Qed.

(** A property read of a value that has been read before succeeds. *)
Lemma getProp_again (v : value) (k k' : string) (x : value) :
  getProp v k = Ok x -> exists y, getProp v k' = Ok y.
Proof. destruct v; cbn; intros H; try discriminate; eauto. Qed.

(** The errors of the first half. *)
Lemma buildRequest_throws (options : value) (e : error) :
  buildRequest options = Throw e ->
  e = TypeError \/ e = ReferenceError "Unexpected qsParams value" \/
  e = Error "Unexpected payload value" \/ exists msg, e = SyntaxError msg.
Proof.
  unfold buildRequest.
  destruct (getProp options "method") as [method|e0] eqn:Hm; cbn [bind];
    [|intros H; left; apply getProp_throws in Hm; congruence].
  destruct (getProp_again _ _ "endpointUrl" _ Hm) as [endpointUrl ->].
  destruct (getProp_again _ _ "payload" _ Hm) as [payload ->].
  destruct (getProp_again _ _ "headers" _ Hm) as [headers ->].
  destruct (getProp_again _ _ "qsParams" _ Hm) as [qsParams ->].
  destruct (getProp_again _ _ "responseType" _ Hm) as [responseType ->].
  destruct (getProp_again _ _ "fileName" _ Hm) as [fileName ->].
  cbn [bind].
  destruct (strictEqStr method "GET" && truthy qsParams
            && negb (typeof qsParams =? "object")%string).
  - intros H; inversion H; auto.
  - destruct (strictEqStr method "POST" && truthy payload); cbn [bind];
      [|discriminate].
    destruct (typeof payload =? "object")%string; cbn [bind]; [discriminate|].
    destruct payload; cbn [bind]; try (intros H; inversion H; now auto).
    destruct (JSON_parse s); cbn [bind]; intros H; inversion H; eauto 6.
Qed.

(** The errors of the second half. *)
Lemma dispatch_throws (request responseType fileName : value) (w : world) (e : error) :
  fst (dispatch request responseType fileName w) = Throw e ->
  e = TypeError \/ (exists status msg, e = HttpError status msg) \/
  e = Rejection VUndefined.
Proof.
  unused.
  assert (Hcatch : forall x : value, handleError x = Throw e ->
             e = TypeError \/ (exists status msg, e = HttpError status msg) \/
             e = Rejection VUndefined).
  { intros x. destruct (handleError_throws x) as (e' & -> & He').
    intros H; inversion H; subst; tauto. }
  unfold dispatch, tryCatch, bindM, createWriteStream, awaitAxios, lift, ret, throw.
  destruct (strictEqStr responseType REQUEST_STREAM_TYPE).
  - destruct fileName; cbv beta iota;
      try (cbn; intros H; inversion H; now auto).
    destruct (axios request) as [response|err]; cbv beta iota.
    + destruct (getProp response "data") as [body|e0] eqn:Hb; cbv beta iota.
      * destruct (bodySignal body) as [[|]|]; cbn; intros H; inversion H; auto.
      * apply getProp_throws in Hb. subst e0. cbn. intros H; inversion H; auto.
    + cbn [caught]. destruct (handleError err) eqn:He; cbn; intros H;
        [discriminate | apply (Hcatch err); congruence].
  - destruct (axios request) as [response|err]; cbv beta iota.
    + cbn. discriminate.
    + cbn [caught]. destruct (handleError err) eqn:He; cbn; intros H;
        [discriminate | apply (Hcatch err); congruence].
Qed.

Lemma sendRequest_built (options request responseType fileName : value) (w : world) :
  buildRequest options = Ok (request, responseType, fileName) ->
  sendRequest options w = dispatch request responseType fileName w.
Proof. intros H. unfold sendRequest, bindM, lift. rewrite H. reflexivity. Qed.

Lemma sendRequest_not_built (options : value) (e : error) (w : world) :
  buildRequest options = Throw e -> sendRequest options w = (Throw e, w).
Proof. intros H. unfold sendRequest, bindM, lift. rewrite H. reflexivity. Qed.

(** Everything [sendRequest] can throw. *)
Lemma sendRequest_throws (options : value) (w : world) (e : error) :
  fst (sendRequest options w) = Throw e ->
  e = TypeError \/ e = ReferenceError "Unexpected qsParams value" \/
  e = Error "Unexpected payload value" \/ (exists msg, e = SyntaxError msg) \/
  (exists status msg, e = HttpError status msg) \/ e = Rejection VUndefined.
Proof.
  unused.
  destruct (buildRequest options) as [[[request responseType] fileName]|e0] eqn:Hb.
  - rewrite (sendRequest_built _ _ _ _ w Hb). intros H.
    apply dispatch_throws in H. tauto.
  - rewrite (sendRequest_not_built _ _ w Hb). cbn. intros H; inversion H; subst.
    apply buildRequest_throws in Hb. tauto.
Qed.

(** The first half as a function of what the destructuring reads. *)
Lemma buildRequest_reads
  (options method endpointUrl payload headers qsParams responseType fileName : value) :
  getProp options "method" = Ok method ->
  getProp options "endpointUrl" = Ok endpointUrl ->
  getProp options "payload" = Ok payload ->
  getProp options "headers" = Ok headers ->
  getProp options "qsParams" = Ok qsParams ->
  getProp options "responseType" = Ok responseType ->
  getProp options "fileName" = Ok fileName ->
  buildRequest options =
  if strictEqStr method "GET" && truthy qsParams
     && negb (typeof qsParams =? "object")%string
  then Throw (ReferenceError "Unexpected qsParams value")
  else
    data <- (if strictEqStr method "POST" && truthy payload then
               if (typeof payload =? "object")%string then Ok payload
               else
                 match payload with
                 | VStr s =>
                     match JSON_parse s with
                     | inl v => Ok v
                     | inr msg => Throw (SyntaxError msg)
                     end
                 | _ => Throw (Error "Unexpected payload value")
                 end
             else Ok VUndefined) ;;
    Ok (VObj ([("method", method); ("url", endpointUrl)]
              ++ (if truthy qsParams then [("params", qsParams)] else [])
              ++ (if truthy data then [("data", data)] else [])
              ++ (if truthy headers then [("headers", headers)] else [])
              ++ (if truthy getProxyConfiguration
                  then [("proxy", getProxyConfiguration)] else [])
              ++ [("responseType", orDefault responseType (VStr REQUEST_DEFAULT_TYPE))]),
        orDefault responseType (VStr REQUEST_DEFAULT_TYPE),
        orDefault fileName (VStr "./tmp.csv")).
Proof.
  intros Hm Hu Hp Hh Hq Hr Hf. unfold buildRequest.
  rewrite Hm, Hu, Hp, Hh, Hq, Hr, Hf. reflexivity.
Qed.

(** C3, as the code has it. [sendRequest] throws the error about
    unexpected query parameters exactly when the method is ['GET'] and the
    query parameters are truthy and not of type object.  Query parameters
    sent with another method never raise it, and neither do query
    parameters of type object sent with ['GET']. *)
Theorem sendRequest_qsParams (options method qsParams : value) (w : world) :
  getProp options "method" = Ok method ->
  getProp options "qsParams" = Ok qsParams ->
  (fst (sendRequest options w) = Throw (ReferenceError "Unexpected qsParams value")
   <-> method = VStr "GET" /\ truthy qsParams = true /\ typeof qsParams <> "object").
Proof.
  unused.
  intros Hm Hq.
  destruct (getProp_again _ _ "endpointUrl" _ Hm) as [endpointUrl Hu].
  destruct (getProp_again _ _ "payload" _ Hm) as [payload Hp].
  destruct (getProp_again _ _ "headers" _ Hm) as [headers Hh].
  destruct (getProp_again _ _ "responseType" _ Hm) as [responseType Hr].
  destruct (getProp_again _ _ "fileName" _ Hm) as [fileName Hf].
  pose proof (buildRequest_reads _ _ _ _ _ _ _ _ Hm Hu Hp Hh Hq Hr Hf) as Hb.
  assert (Hcond : strictEqStr method "GET" && truthy qsParams
                  && negb (typeof qsParams =? "object")%string = true
                  <-> method = VStr "GET" /\ truthy qsParams = true
                      /\ typeof qsParams <> "object").
  { rewrite !andb_true_iff, negb_true_iff, String.eqb_neq.
    unfold strictEqStr. destruct method; try (intuition congruence).
    rewrite String.eqb_eq. intuition congruence. }
  rewrite <- Hcond.
  destruct (strictEqStr method "GET" && truthy qsParams
            && negb (typeof qsParams =? "object")%string).
  - rewrite (sendRequest_not_built _ _ w Hb). cbn. tauto.
  - split; [|discriminate]. intros H. exfalso.
    destruct (buildRequest options) as [[[request rt] fn]|e0] eqn:Hbuilt.
    + rewrite (sendRequest_built _ _ _ _ w Hbuilt) in H.
      apply dispatch_throws in H.
      destruct H as [H|[(st & m & H)|H]]; discriminate.
    + rewrite (sendRequest_not_built _ _ w Hbuilt) in H. cbn in H.
      inversion H; subst e0. clear H.
      destruct (strictEqStr method "POST" && truthy payload); cbn [bind] in Hb;
        [|discriminate].
      destruct (typeof payload =? "object")%string; cbn [bind] in Hb;
        [discriminate|].
      destruct payload; cbn [bind] in Hb; try discriminate.
      destruct (JSON_parse s); cbn [bind] in Hb; discriminate.
Qed.

(** C6, as the code has it.  For a ['POST'] the request that goes to the
    [try] block is the object literal with the caller's values, and its
    [data] depends on the payload: a truthy payload of type object is the
    [data] as it is; a non-empty string is parsed with [JSON.parse], the
    parse result is the [data] when it is truthy and is left out when it is
    falsy, and a parse error is thrown on; any other truthy payload makes
    [sendRequest] throw the error 'Unexpected payload value' before anything
    is sent; a falsy payload is passed over, without [data] and without
    error. *)
Theorem sendRequest_payload
  (options endpointUrl payload headers qsParams responseType fileName : value)
  (w : world) :
  getProp options "method" = Ok (VStr "POST") ->
  getProp options "endpointUrl" = Ok endpointUrl ->
  getProp options "payload" = Ok payload ->
  getProp options "headers" = Ok headers ->
  getProp options "qsParams" = Ok qsParams ->
  getProp options "responseType" = Ok responseType ->
  getProp options "fileName" = Ok fileName ->
  let request := fun data : value =>
    VObj ([("method", VStr "POST"); ("url", endpointUrl)]
          ++ (if truthy qsParams then [("params", qsParams)] else [])
          ++ (if truthy data then [("data", data)] else [])
          ++ (if truthy headers then [("headers", headers)] else [])
          ++ (if truthy getProxyConfiguration
              then [("proxy", getProxyConfiguration)] else [])
          ++ [("responseType", orDefault responseType (VStr REQUEST_DEFAULT_TYPE))])%list in
  let send := fun data : value =>
    dispatch (request data) (orDefault responseType (VStr REQUEST_DEFAULT_TYPE))
      (orDefault fileName (VStr "./tmp.csv")) w in
  (truthy payload = true -> typeof payload = "object" ->
   sendRequest options w = send payload /\
   getProp (request payload) "data" = Ok payload) /\
  (forall s, payload = VStr s -> s <> "" ->
     (forall v, JSON_parse s = inl v ->
        sendRequest options w = send v /\
        getProp (request v) "data" = Ok (if truthy v then v else VUndefined)) /\
     (forall msg, JSON_parse s = inr msg ->
        sendRequest options w = (Throw (SyntaxError msg), w))) /\
  (truthy payload = true -> typeof payload <> "object" -> typeof payload <> "string" ->
   sendRequest options w = (Throw (Error "Unexpected payload value"), w)) /\
  (truthy payload = false ->
   sendRequest options w = send VUndefined /\
   getProp (request VUndefined) "data" = Ok VUndefined).
Proof.
  intros Hm Hu Hp Hh Hq Hr Hf request send.
  pose proof (buildRequest_reads _ _ _ _ _ _ _ _ Hm Hu Hp Hh Hq Hr Hf) as Hb.
  cbn [strictEqStr String.eqb Ascii.eqb Bool.eqb andb] in Hb.
  assert (Hdata : forall d : value,
             getProp (request d) "data" = Ok (if truthy d then d else VUndefined)).
  { intros d. subst request. cbn [getProp]. f_equal.
    destruct (truthy qsParams), (truthy d), (truthy headers),
      (truthy getProxyConfiguration); reflexivity. }
  split; [|split; [|split]].
  - intros Ht Hobj. rewrite Ht in Hb.
    apply String.eqb_eq in Hobj. rewrite Hobj in Hb. cbn [bind] in Hb.
    split; [apply (sendRequest_built _ _ _ _ w Hb)|].
    rewrite Hdata, Ht. reflexivity.
  - intros s -> Hs.
    assert (Ht : truthy (VStr s) = true).
    { cbn. destruct (String.eqb_spec s ""); [congruence | reflexivity]. }
    rewrite Ht in Hb. cbn [typeof String.eqb Ascii.eqb Bool.eqb] in Hb.
    split.
    + intros v Hv. rewrite Hv in Hb. cbn [bind] in Hb.
      split; [apply (sendRequest_built _ _ _ _ w Hb) | apply Hdata].
    + intros msg Hv. rewrite Hv in Hb. cbn [bind] in Hb.
      apply (sendRequest_not_built _ _ w Hb).
  - intros Ht Hno Hns. rewrite Ht in Hb.
    apply String.eqb_neq in Hno. rewrite Hno in Hb.
    destruct payload; cbn [bind] in Hb; try apply (sendRequest_not_built _ _ w Hb).
    cbn in Hns. congruence.
  - intros Ht. rewrite Ht in Hb. cbn [bind] in Hb.
    split; [apply (sendRequest_built _ _ _ _ w Hb)|].
    rewrite Hdata. reflexivity.
Qed.

(** ** apiSendRequest *)

Lemma bindM_ret {A : Type} (m : M A) (w : world) :
  bindM m (fun a => ret a) w = m w.
Proof. unfold bindM, ret. destruct (m w) as [[a|e] w']; reflexivity. Qed.

Lemma supported_check (methUpper : string) :
  negb (methUpper =? "POST")%string && negb (methUpper =? "GET")%string
  && negb (methUpper =? "DELETE")%string = false <-> supported methUpper.
Proof.
  unused.
  unfold supported.
  destruct (String.eqb_spec methUpper "POST"), (String.eqb_spec methUpper "GET"),
    (String.eqb_spec methUpper "DELETE"); cbn; intuition congruence.
Qed.

(** Past its checks [apiSendRequest] is the call of [sendRequest] on the
    object literal. *)
Lemma apiSendRequest_delegates
  (options endpointUrl headers qsParams payload responseType fileName : value)
  (m : string) (w : world) :
  getProp options "method" = Ok (VStr m) ->
  getProp options "endpointUrl" = Ok endpointUrl ->
  getProp options "headers" = Ok headers ->
  getProp options "qsParams" = Ok qsParams ->
  getProp options "payload" = Ok payload ->
  getProp options "responseType" = Ok responseType ->
  getProp options "fileName" = Ok fileName ->
  truthy headers = true ->
  typeof headers = "object" ->
  supported (toUpperCase m) ->
  apiSendRequest options w =
  sendRequest
    (forwarded (toUpperCase m) endpointUrl headers (orDefault qsParams VNull)
       (orDefault payload VNull)
       (orDefault responseType (VStr REQUEST_DEFAULT_TYPE))
       (orDefault fileName VNull)) w.
Proof.
  intros Hm Hu Hh Hq Hp Hr Hf Ht Hobj Hs.
  unfold apiSendRequest, bindM at 1 2 3 4 5 6 7, lift.
  rewrite Hm, Hu, Hh, Hq, Hp, Hr, Hf.
  assert (Hd : orDefault headers VNull = headers)
    by (destruct headers; cbn in *; congruence).
  rewrite Hd, Ht, Hobj. cbn [negb String.eqb Ascii.eqb Bool.eqb].
  apply supported_check in Hs. rewrite Hs.
  apply bindM_ret.
Qed.

(** The object literal names the query parameters [params]; [sendRequest]
    reads [qsParams], and finds nothing. *)
Lemma forwarded_qsParams
  (m : string) (endpointUrl headers qsParams payload responseType fileName : value) :
  getProp (forwarded m endpointUrl headers qsParams payload responseType fileName)
    "qsParams" = Ok VUndefined.
Proof. reflexivity. Qed.

(** Whatever the caller passed as [qsParams], the request built from the
    object literal has no [params]. *)
Lemma forwarded_request_without_params
  (m : string) (endpointUrl headers qsParams payload responseType fileName : value)
  (fields : list (string * value)) (responseType' fileName' : value) :
  buildRequest (forwarded m endpointUrl headers qsParams payload responseType fileName)
  = Ok (VObj fields, responseType', fileName') ->
  assoc "params" fields = None.
Proof.
  rewrite (buildRequest_reads
             (forwarded m endpointUrl headers qsParams payload responseType fileName)
             (VStr m) endpointUrl payload headers VUndefined responseType fileName
             eq_refl eq_refl eq_refl eq_refl eq_refl eq_refl eq_refl).
  cbn [truthy andb negb].
  rewrite andb_false_r. cbn [andb].
  destruct (if strictEqStr (VStr m) "POST" && truthy payload
            then _ else _) as [data|e]; cbn [bind]; [|discriminate].
  intros H. inversion H; subst. clear H.
  destruct (truthy data), (truthy headers), (truthy getProxyConfiguration);
    reflexivity.
Qed.

(** C1, as the code has it.  [apiSendRequest] throws the missing-headers
    error when the headers are omitted, [null] or otherwise falsy; it
    throws the unexpected-headers error when they are truthy but not of
    type object; with headers of type object, the empty mapping included,
    and a string method, it throws the unsupported-method error when the
    upper-cased method is not POST, GET or DELETE, and otherwise raises
    neither the missing-headers nor the unsupported-method error; a
    method that is not a string makes the upper-casing fail with a
    [TypeError]. *)
Theorem apiSendRequest_prechecks (options method headers : value) (w : world) :
  getProp options "method" = Ok method ->
  getProp options "headers" = Ok headers ->
  (truthy headers = false ->
   apiSendRequest options w = (Throw missingHeaders, w)) /\
  (truthy headers = true -> typeof headers <> "object" ->
   apiSendRequest options w = (Throw unexpectedHeaders, w)) /\
  (truthy headers = true -> typeof headers = "object" ->
   forall m, method = VStr m ->
     (~ supported (toUpperCase m) ->
      apiSendRequest options w = (Throw unexpectedMethod, w)) /\
     (supported (toUpperCase m) ->
      fst (apiSendRequest options w) <> Throw missingHeaders /\
      fst (apiSendRequest options w) <> Throw unexpectedMethod)) /\
  (truthy headers = true -> typeof headers = "object" ->
   (forall m, method <> VStr m) ->
   apiSendRequest options w = (Throw TypeError, w)).
Proof.
  intros Hm Hh.
  destruct (getProp_again _ _ "endpointUrl" _ Hm) as [endpointUrl Hu].
  destruct (getProp_again _ _ "qsParams" _ Hm) as [qsParams Hq].
  destruct (getProp_again _ _ "payload" _ Hm) as [payload Hp].
  destruct (getProp_again _ _ "responseType" _ Hm) as [responseType Hr].
  destruct (getProp_again _ _ "fileName" _ Hm) as [fileName Hf].
  assert (Hd : truthy (orDefault headers VNull) = truthy headers)
    by (destruct headers; reflexivity).
  assert (Hty : truthy headers = true -> orDefault headers VNull = headers)
    by (destruct headers; cbn; congruence).
  split; [|split; [|split]].
  - intros Hfalse.
    unfold apiSendRequest, bindM, lift.
    rewrite Hm, Hu, Hh, Hq, Hp, Hr, Hf, Hd, Hfalse. reflexivity.
  - intros Htrue Hno. apply String.eqb_neq in Hno.
    unfold apiSendRequest, bindM, lift.
    rewrite Hm, Hu, Hh, Hq, Hp, Hr, Hf, Hd, Htrue, (Hty Htrue), Hno. reflexivity.
  - intros Htrue Hobj m ->. split.
    + intros Hns.
      assert (Hc : negb (toUpperCase m =? "POST")%string
                   && negb (toUpperCase m =? "GET")%string
                   && negb (toUpperCase m =? "DELETE")%string = true).
      { destruct (_ && _) eqn:Hc; [reflexivity|].
        apply supported_check in Hc. contradiction. }
      unfold apiSendRequest, bindM, lift.
      rewrite Hm, Hu, Hh, Hq, Hp, Hr, Hf, Hd, Htrue, (Hty Htrue), Hobj.
      cbn [negb String.eqb Ascii.eqb Bool.eqb]. rewrite Hc. reflexivity.
    + intros Hs.
      rewrite (apiSendRequest_delegates _ _ _ _ _ _ _ _ w Hm Hu Hh Hq Hp Hr Hf
                 Htrue Hobj Hs).
      split; intros H; apply sendRequest_throws in H;
        destruct H as [H|[H|[H|[(msg & H)|[(st & msg & H)|H]]]]]; discriminate.
  - intros Htrue Hobj Hnot.
    unfold apiSendRequest, bindM, lift.
    rewrite Hm, Hu, Hh, Hq, Hp, Hr, Hf, Hd, Htrue, (Hty Htrue), Hobj.
    cbn [negb String.eqb Ascii.eqb Bool.eqb].
    destruct method; try reflexivity. exfalso. apply (Hnot s). reflexivity.
Qed.

(** ** downloadFile *)

(** The directory the call leaves behind. *)
Lemma createPathIfNotExist_string (dir : string) (w : world) :
  createPathIfNotExist (VStr dir) w =
  (Ok tt,
   if existsb (String.eqb dir) (directories w) then w
   else mkWorld (directories w ++ [dir]) (writeStreams w) (issued w)).
Proof.
  unfold createPathIfNotExist, bindM, existsSync, mkdirSync, ret.
  destruct (existsb (String.eqb dir) (directories w)); reflexivity.
Qed.

(** C7, what the code does.  With an extension that passes the allow-list
    and a string for the target directory, [downloadFile] makes sure the
    directory exists and then throws the [ReferenceError] for the unbound
    name [join]: no request reaches the transport, no write stream is
    opened and no file path is returned. *)
Theorem downloadFile_join_unbound
  (fileUrl headers fileName addTimestamp : value) (extension dir : string)
  (w : world) :
  existsb (fun v => strictEqStr v (trim extension)) API_EXTRACTION_FILE_FORMATS
  = true ->
  let after := snd (downloadFile fileUrl headers fileName (VStr extension)
                      (VStr dir) addTimestamp w) in
  fst (downloadFile fileUrl headers fileName (VStr extension) (VStr dir)
         addTimestamp w)
  = Throw (ReferenceError "join is not defined") /\
  In dir (directories after) /\
  issued after = issued w /\
  writeStreams after = writeStreams w.
Proof.
  intros Hallowed.
  assert (Hrun : downloadFile fileUrl headers fileName (VStr extension) (VStr dir)
                   addTimestamp w
                 = (Throw (ReferenceError "join is not defined"),
                    if existsb (String.eqb dir) (directories w) then w
                    else mkWorld (directories w ++ [dir]) (writeStreams w)
                           (issued w))).
  { unfold downloadFile, validateOption. rewrite Hallowed. cbn [negb].
    unfold bindM at 1, lift at 1. cbv beta iota.
    unfold bindM at 1. rewrite createPathIfNotExist_string. reflexivity. }
  cbv zeta. rewrite Hrun. cbn [fst snd].
  destruct (existsb (String.eqb dir) (directories w)) eqn:Hex; cbn.
  - repeat split; auto.
    apply existsb_exists in Hex. destruct Hex as (d & Hin & Hd).
    apply String.eqb_eq in Hd. congruence.
  - repeat split; auto. apply in_or_app. right. left. reflexivity.
Qed.

(** The other half of the claim holds: an extension that is a string and
    whose trimmed form is not in the allow-list is refused with the
    [RangeError], before anything else happens. *)
Lemma downloadFile_refused
  (fileUrl headers fileName toSavePath addTimestamp : value) (extension : string)
  (w : world) :
  existsb (fun v => strictEqStr v (trim extension)) API_EXTRACTION_FILE_FORMATS
  = false ->
  downloadFile fileUrl headers fileName (VStr extension) toSavePath addTimestamp w
  = (Throw (RangeError ("Option value " ++ extension
                        ++ " is not within the allowed options: "
                        ++ toStr (VArr API_EXTRACTION_FILE_FORMATS))), w).
Proof.
  intros Hno. unfold downloadFile, validateOption. rewrite Hno. reflexivity.
Qed.

(** ** getProxyConfiguration *)

Lemma loadEnvVariable_spec (configKey : string) (v : value) :
  loadEnvVariable configKey = Ok v <->
  getProp config configKey = Ok v /\ truthy v = true.
Proof.
  unfold loadEnvVariable.
  destruct (getProp config configKey) as [x|e]; cbn [bind].
  - destruct (truthy x) eqn:Hx; cbn [negb].
    + split; [intros H; inversion H; subst; auto | intros [H _]; exact H].
    + split; [discriminate | intros [H Hv]; inversion H; congruence].
  - split; [discriminate | intros [H _]; discriminate].
Qed.

Lemma includes_keys (k : string) (entries : list (string * value)) :
  includes k (map fst entries) = true <-> assoc k entries <> None.
Proof.
  unfold includes.
  induction entries as [|[k' x] entries IH]; cbn.
  - split; [discriminate | congruence].
  - destruct (String.eqb k k'); cbn; [split; [discriminate | reflexivity] | exact IH].
Qed.

(** An index is written in digits: it is none of the two names. *)
Lemma includes_indexKeys (n : nat) :
  includes "username" (indexKeys n) = false /\
  includes "password" (indexKeys n) = false.
Proof.
  assert (H : forall k, (k = "username" \/ k = "password") ->
                        forall i : nat, (k =? decimal (Z.of_nat i))%string = false).
  { intros k Hk i. apply String.eqb_neq. unfold decimal.
    destruct (Z.of_nat i) as [|p|p]; cbn [Z.to_int NilZero.string_of_int].
    - destruct Hk; subst; discriminate.
    - destruct (Pos.to_uint p); destruct Hk; subst; discriminate.
    - destruct Hk; subst; discriminate. }
  unfold includes, indexKeys.
  split; apply not_true_is_false; intros Hin;
    apply existsb_exists in Hin; destruct Hin as (x & Hx & Heq);
    apply in_map_iff in Hx; destruct Hx as (i & <- & _);
    rewrite H in Heq; auto; discriminate.
Qed.

(** C4. [getProxyConfiguration] gives [null] when the lookup of the proxy
    block fails and when the block's [use] is falsy.  When [use] is truthy
    it gives an object with the block's protocol, host and port, and that
    object has an [auth] property, the block's [auth], if and only if
    [auth] is a mapping that holds both the key [username] and the key
    [password].  No exception leaves the function. *)
Theorem getProxyConfiguration_spec :
  (forall e, loadEnvVariable "proxy" = Throw e -> getProxyConfiguration = VNull) /\
  (forall block, loadEnvVariable "proxy" = Ok block ->
     (truthy (field block "use") = false -> getProxyConfiguration = VNull) /\
     (truthy (field block "use") = true ->
      exists fields,
        getProxyConfiguration = VObj fields /\
        assoc "protocol" fields = Some (orDefault (field block "protocol") (VStr "")) /\
        assoc "host" fields = Some (orDefault (field block "host") (VStr "")) /\
        assoc "port" fields = Some (orDefault (field block "port") (VStr "")) /\
        (forall entries,
           orDefault (field block "auth") (VObj []) = VObj entries ->
           (assoc "username" entries <> None /\ assoc "password" entries <> None ->
            assoc "auth" fields = Some (VObj entries)) /\
           (~ (assoc "username" entries <> None /\ assoc "password" entries <> None) ->
            assoc "auth" fields = None)) /\
        ((forall entries, orDefault (field block "auth") (VObj []) <> VObj entries) ->
         assoc "auth" fields = None))).
Proof.
  split.
  - intros e He. unfold getProxyConfiguration. rewrite He. reflexivity.
  - intros block Hb. unfold getProxyConfiguration. rewrite Hb.
    apply loadEnvVariable_spec in Hb. destruct Hb as [_ Hblock].
    assert (Hread : forall k, getProp block k = Ok (field block k)).
    { intros k. unfold field. destruct block; cbn in *; congruence. }
    rewrite !Hread. cbn [bind].
    assert (Huse : truthy (orDefault (field block "use") (VBool false))
                   = truthy (field block "use"))
      by (destruct (field block "use"); reflexivity).
    rewrite Huse.
    split; [intros ->; reflexivity|]. intros ->.
    set (protocol := orDefault (field block "protocol") (VStr "")).
    set (host := orDefault (field block "host") (VStr "")).
    set (port := orDefault (field block "port") (VStr "")).
    destruct (orDefault (field block "auth") (VObj [])) as [| |b|n| |s|l|entries] eqn:Ha;
      cbn [objectKeys].
    8:{ exists (([("protocol", protocol); ("host", host); ("port", port)]
                 ++ if includes "username" (map fst entries)
                       && includes "password" (map fst entries)
                    then [("auth", VObj entries)] else [])%list).
        split; [destruct (_ && _); reflexivity|].
        do 3 (split; [reflexivity|]).
        split.
        - intros entries' Heq. inversion Heq; subst entries'. clear Heq.
          rewrite <- !includes_keys, <- andb_true_iff.
          destruct (_ && _); split; intros H; try reflexivity; congruence.
        - intros Hn. exfalso. apply (Hn entries eq_refl). }
    all: try (destruct (includes_indexKeys (List.length l)) as [-> _]).
    all: try (destruct (includes_indexKeys (String.length s)) as [-> _]).
    all: cbn [includes existsb andb].
    all: exists [("protocol", protocol); ("host", host); ("port", port)].
    all: split; [reflexivity|].
    all: do 3 (split; [reflexivity|]).
    all: split; [intros entries' Heq; discriminate | reflexivity].
Qed.

(** * Further properties of the module *)

(** ** handleError *)

(** X3. A rejection of the transport that carries no response (a network
    failure) leaves the dispatcher as a [TypeError], not as an
    [HttpError]. *)
Theorem dispatch_rejected_without_response
  (request responseType fileName err : value) (w : world) :
  axios request = inr err ->
  (strictEqStr responseType REQUEST_STREAM_TYPE = true ->
   exists path, fileName = VStr path) ->
  (forall response, getProp err "response" = Ok response ->
                    response = VUndefined \/ response = VNull) ->
  fst (dispatch request responseType fileName w) = Throw TypeError.
Proof.
  intros Hrej Hfile Hnone.
  rewrite (dispatch_rejected request responseType fileName err w Hrej Hfile).
  unfold handleError.
  destruct (getProp err "response") as [response|e] eqn:Hr; cbn [bind].
  - destruct (Hnone response eq_refl) as [-> | ->]; reflexivity.
  - apply getProp_throws in Hr. subst. reflexivity.
Qed.

(** ** sendRequest *)

(** X4. [sendRequest] hands at most one request to the transport, after
    what was sent before; it sends none when the request cannot be built,
    and it never touches the directories. *)
Theorem sendRequest_one_request (options : value) (w : world) :
  let after := snd (sendRequest options w) in
  directories after = directories w /\
  (issued after = issued w \/
   exists request responseType fileName,
     buildRequest options = Ok (request, responseType, fileName) /\
     issued after = (issued w ++ [request])%list) /\
  (forall e, buildRequest options = Throw e -> after = w).
Proof.
  cbv zeta.
  destruct (buildRequest options) as [[[request responseType] fileName]|e0] eqn:Hb.
  - rewrite (sendRequest_built _ _ _ _ w Hb).
    assert (H : directories (snd (dispatch request responseType fileName w))
                = directories w /\
                (issued (snd (dispatch request responseType fileName w))
                 = issued w \/
                 issued (snd (dispatch request responseType fileName w))
                 = (issued w ++ [request])%list)).
    { unfold dispatch, tryCatch, bindM, createWriteStream, awaitAxios, lift, ret,
        throw.
      destruct (strictEqStr responseType REQUEST_STREAM_TYPE).
      - destruct fileName; cbv beta iota;
          try (destruct (handleError (caught TypeError)); cbn; now auto).
        destruct (axios request) as [response|err]; cbv beta iota.
        + destruct (getProp response "data") as [body|e1]; cbv beta iota.
          * destruct (bodySignal body) as [[|]|]; cbv beta iota;
              try (destruct (handleError (caught TypeError)));
              cbn; now auto.
          * destruct (handleError (caught e1)); cbn; now auto.
        + destruct (handleError (caught (Rejection err))); cbn; now auto.
      - destruct (axios request) as [response|err]; cbv beta iota.
        + cbn. now auto.
        + destruct (handleError (caught (Rejection err))); cbn; now auto. }
    destruct H as [Hd Hi]. split; [exact Hd|]. split; [|discriminate].
    destruct Hi as [Hi|Hi]; [left; exact Hi|].
    right. exists request, responseType, fileName. split; [reflexivity|exact Hi].
  - rewrite (sendRequest_not_built _ _ w Hb). cbn.
    split; [reflexivity|]. split; [left; reflexivity|]. reflexivity.
Qed.

(** X5. In buffered mode a response of the transport is returned as it
    is: the one request is recorded and nothing else changes. *)
Theorem sendRequest_buffered
  (options request responseType fileName response : value) (w : world) :
  buildRequest options = Ok (request, responseType, fileName) ->
  strictEqStr responseType REQUEST_STREAM_TYPE = false ->
  axios request = inl response ->
  sendRequest options w
  = (Ok response,
     mkWorld (directories w) (writeStreams w) (issued w ++ [request])).
Proof.
  intros Hb Hmode Hax.
  rewrite (sendRequest_built _ _ _ _ w Hb).
  unfold dispatch, tryCatch, bindM, awaitAxios, lift, ret.
  rewrite Hmode, Hax. reflexivity.
Qed.

(** X6. In streamed mode a write stream is opened on the file name
    and the one request goes out.  When the body ends the call resolves with
    [undefined]; when the body signals an error the call is rejected with
    [undefined], past [handleError]: no [HttpError] is made of it. *)
Theorem sendRequest_streamed
  (options request responseType response body : value) (path : string)
  (w : world) :
  buildRequest options = Ok (request, responseType, VStr path) ->
  strictEqStr responseType REQUEST_STREAM_TYPE = true ->
  axios request = inl response ->
  getProp response "data" = Ok body ->
  let after :=
    mkWorld (directories w) (writeStreams w ++ [path]) (issued w ++ [request]) in
  (bodySignal body = Some StreamEnd ->
   sendRequest options w = (Ok VUndefined, after)) /\
  (bodySignal body = Some StreamError ->
   sendRequest options w = (Throw (Rejection VUndefined), after)).
Proof.
  intros Hb Hmode Hax Hbody. cbv zeta.
  rewrite (sendRequest_built _ _ _ _ w Hb).
  unfold dispatch, tryCatch, bindM, createWriteStream, awaitAxios, lift, ret.
  rewrite Hmode. cbv beta iota. rewrite Hax. cbv beta iota.
  cbn [directories writeStreams issued]. rewrite Hbody.
  split; intros ->; reflexivity.
Qed.

(** The reads of the destructuring succeed whenever the request is built. *)
Lemma buildRequest_built_reads (options request responseType fileName : value) :
  buildRequest options = Ok (request, responseType, fileName) ->
  exists method, getProp options "method" = Ok method.
Proof.
  unfold buildRequest.
  destruct (getProp options "method") as [method|e]; cbn [bind];
    [eauto | discriminate].
Qed.

Lemma getProxyConfiguration_shape :
  getProxyConfiguration = VNull \/ exists fields, getProxyConfiguration = VObj fields.
Proof.
  unfold getProxyConfiguration.
  destruct (loadEnvVariable "proxy") as [block|e]; [|now left].
  destruct (_ <- getProp block "use" ;; _) as [[[[[use protocol] host] port] auth]|e];
    [|now left].
  destruct (truthy use); [|now left].
  destruct (objectKeys auth) as [keys|e]; [|eauto].
  destruct (includes "username" keys && includes "password" keys); eauto.
Qed.

(** X7. A payload only travels with ['POST']: for any other method the
    request that is built has no [data], whatever payload was passed. *)
Theorem buildRequest_data_only_with_post
  (options method : value) (fields : list (string * value))
  (responseType fileName : value) :
  getProp options "method" = Ok method ->
  method <> VStr "POST" ->
  buildRequest options = Ok (VObj fields, responseType, fileName) ->
  assoc "data" fields = None.
Proof.
  intros Hm Hnot.
  destruct (getProp_again _ _ "endpointUrl" _ Hm) as [endpointUrl Hu].
  destruct (getProp_again _ _ "payload" _ Hm) as [payload Hp].
  destruct (getProp_again _ _ "headers" _ Hm) as [headers Hh].
  destruct (getProp_again _ _ "qsParams" _ Hm) as [qsParams Hq].
  destruct (getProp_again _ _ "responseType" _ Hm) as [rt Hr].
  destruct (getProp_again _ _ "fileName" _ Hm) as [fn Hf].
  rewrite (buildRequest_reads _ _ _ _ _ _ _ _ Hm Hu Hp Hh Hq Hr Hf).
  assert (Hpost : strictEqStr method "POST" = false).
  { destruct method; try reflexivity. cbn. apply String.eqb_neq. congruence. }
  rewrite Hpost. cbn [andb bind truthy].
  destruct (strictEqStr method "GET" && truthy qsParams
            && negb (typeof qsParams =? "object")%string); [discriminate|].
  intros H. inversion H; subst. clear H.
  destruct (truthy qsParams), (truthy headers), (truthy getProxyConfiguration);
    reflexivity.
Qed.

(** X8. The request carries a [proxy] exactly when the proxy
    configuration is not [null], and then it is that configuration. *)
Theorem buildRequest_proxy
  (options : value) (fields : list (string * value)) (responseType fileName : value) :
  buildRequest options = Ok (VObj fields, responseType, fileName) ->
  (getProxyConfiguration = VNull -> assoc "proxy" fields = None) /\
  (getProxyConfiguration <> VNull ->
   assoc "proxy" fields = Some getProxyConfiguration).
Proof.
  intros Hb.
  destruct (buildRequest_built_reads _ _ _ _ Hb) as [method Hm].
  destruct (getProp_again _ _ "endpointUrl" _ Hm) as [endpointUrl Hu].
  destruct (getProp_again _ _ "payload" _ Hm) as [payload Hp].
  destruct (getProp_again _ _ "headers" _ Hm) as [headers Hh].
  destruct (getProp_again _ _ "qsParams" _ Hm) as [qsParams Hq].
  destruct (getProp_again _ _ "responseType" _ Hm) as [rt Hr].
  destruct (getProp_again _ _ "fileName" _ Hm) as [fn Hf].
  rewrite (buildRequest_reads _ _ _ _ _ _ _ _ Hm Hu Hp Hh Hq Hr Hf) in Hb.
  destruct (strictEqStr method "GET" && truthy qsParams
            && negb (typeof qsParams =? "object")%string); [discriminate|].
  destruct (if strictEqStr method "POST" && truthy payload then _ else _)
    as [data|e]; cbn [bind] in Hb; [|discriminate].
  inversion Hb; subst. clear Hb.
  destruct getProxyConfiguration_shape as [Hnull|[ps Hobj]].
  - rewrite Hnull. cbn [truthy]. split; [|congruence]. intros _.
    destruct (truthy qsParams), (truthy data), (truthy headers); reflexivity.
  - rewrite Hobj. cbn [truthy]. split; [discriminate|]. intros _.
    destruct (truthy qsParams), (truthy data), (truthy headers); reflexivity.
Qed.

(** ** apiSendRequest, end to end *)

(** X9. What [apiSendRequest] does hand over.  With headers of type
    object, a supported method and a payload of type object, the request
    that reaches the transport has the upper-cased method, the caller's
    URL and headers, no [params], and the payload as [data] exactly when
    the method is POST. *)
Theorem apiSendRequest_hands_over
  (options endpointUrl headers qsParams payload responseType fileName : value)
  (m : string) (w : world) :
  getProp options "method" = Ok (VStr m) ->
  getProp options "endpointUrl" = Ok endpointUrl ->
  getProp options "headers" = Ok headers ->
  getProp options "qsParams" = Ok qsParams ->
  getProp options "payload" = Ok payload ->
  getProp options "responseType" = Ok responseType ->
  getProp options "fileName" = Ok fileName ->
  truthy headers = true ->
  typeof headers = "object" ->
  supported (toUpperCase m) ->
  truthy payload = true ->
  typeof payload = "object" ->
  exists fields,
    apiSendRequest options w
    = dispatch (VObj fields) (orDefault responseType (VStr REQUEST_DEFAULT_TYPE))
        (orDefault fileName VNull) w /\
    assoc "method" fields = Some (VStr (toUpperCase m)) /\
    assoc "url" fields = Some endpointUrl /\
    assoc "headers" fields = Some headers /\
    assoc "params" fields = None /\
    assoc "data" fields
    = (if (toUpperCase m =? "POST")%string then Some payload else None).
Proof.
  intros Hm Hu Hh Hq Hp Hr Hf Ht Hobj Hs Hpay Hpobj.
  rewrite (apiSendRequest_delegates _ _ _ _ _ _ _ _ w Hm Hu Hh Hq Hp Hr Hf Ht Hobj Hs).
  assert (Hpd : orDefault payload VNull = payload)
    by (destruct payload; cbn in *; congruence).
  rewrite Hpd.
  pose proof (buildRequest_reads
                (forwarded (toUpperCase m) endpointUrl headers
                   (orDefault qsParams VNull) payload
                   (orDefault responseType (VStr REQUEST_DEFAULT_TYPE))
                   (orDefault fileName VNull))
                (VStr (toUpperCase m)) endpointUrl payload headers VUndefined
                (orDefault responseType (VStr REQUEST_DEFAULT_TYPE))
                (orDefault fileName VNull)
                eq_refl eq_refl eq_refl eq_refl eq_refl eq_refl eq_refl) as Hb.
  cbn [truthy andb negb] in Hb. rewrite andb_false_r in Hb. cbn [andb] in Hb.
  rewrite Hpay, Ht in Hb. apply String.eqb_eq in Hpobj. rewrite Hpobj in Hb.
  assert (Hrt : orDefault (orDefault responseType (VStr REQUEST_DEFAULT_TYPE))
                  (VStr REQUEST_DEFAULT_TYPE)
                = orDefault responseType (VStr REQUEST_DEFAULT_TYPE))
    by (destruct responseType; reflexivity).
  assert (Hfn : orDefault (orDefault fileName VNull) (VStr "./tmp.csv")
                = orDefault fileName VNull)
    by (destruct fileName; reflexivity).
  rewrite Hrt, Hfn in Hb.
  unfold strictEqStr in Hb.
  destruct (toUpperCase m =? "POST")%string; cbn [andb bind] in Hb;
    [rewrite Hpay in Hb|]; cbn [truthy] in Hb;
    (eexists; split; [apply (sendRequest_built _ _ _ _ w Hb)|]);
    destruct (truthy getProxyConfiguration); repeat split; reflexivity.
Qed.

(** Without a string for the file name the streamed branch stops at the
    write stream. *)
Lemma dispatch_without_file (request responseType fileName : value) (w : world) :
  strictEqStr responseType REQUEST_STREAM_TYPE = true ->
  (forall path, fileName <> VStr path) ->
  dispatch request responseType fileName w = (Throw TypeError, w).
Proof.
  intros Hmode Hfile.
  unfold dispatch, tryCatch, bindM, createWriteStream, lift, ret.
  rewrite Hmode.
  destruct fileName; try reflexivity. destruct (Hfile s eq_refl).
Qed.

(** X10. Streamed mode through [apiSendRequest] needs a file name.  When
    it is left out the object literal passes [null], so the default
    ['./tmp.csv'] of [sendRequest] does not apply and the write stream
    cannot be opened: the call never succeeds and sends nothing.  It ends in
    a [TypeError], unless the payload of a POST is refused first, with the
    error 'Unexpected payload value' or with the [SyntaxError] of
    [JSON.parse]. *)
Theorem apiSendRequest_stream_without_fileName
  (options endpointUrl headers qsParams payload fileName : value)
  (m : string) (w : world) :
  getProp options "method" = Ok (VStr m) ->
  getProp options "endpointUrl" = Ok endpointUrl ->
  getProp options "headers" = Ok headers ->
  getProp options "qsParams" = Ok qsParams ->
  getProp options "payload" = Ok payload ->
  getProp options "responseType" = Ok (VStr REQUEST_STREAM_TYPE) ->
  getProp options "fileName" = Ok fileName ->
  truthy headers = true ->
  typeof headers = "object" ->
  supported (toUpperCase m) ->
  fileName = VUndefined \/ fileName = VNull ->
  (toUpperCase m <> "POST" \/ truthy payload = false \/ typeof payload = "object" \/
   (exists s v, payload = VStr s /\ JSON_parse s = inl v) ->
   apiSendRequest options w = (Throw TypeError, w)) /\
  (toUpperCase m = "POST" ->
   forall s msg, payload = VStr s -> s <> "" -> JSON_parse s = inr msg ->
   apiSendRequest options w = (Throw (SyntaxError msg), w)) /\
  (toUpperCase m = "POST" -> truthy payload = true ->
   typeof payload <> "object" -> typeof payload <> "string" ->
   apiSendRequest options w = (Throw (Error "Unexpected payload value"), w)).
Proof.
  intros Hm Hu Hh Hq Hp Hr Hf Ht Hobj Hs Hfile.
  rewrite (apiSendRequest_delegates _ _ _ _ _ _ _ _ w Hm Hu Hh Hq Hp Hr Hf Ht Hobj Hs).
  assert (Hfn : orDefault fileName VNull = VNull)
    by (destruct Hfile; subst; reflexivity).
  rewrite Hfn. cbn [orDefault].
  set (passed := orDefault payload VNull).
  assert (Htr : truthy passed = truthy payload)
    by (subst passed; destruct payload; reflexivity).
  assert (Hsame : truthy payload = true -> passed = payload)
    by (subst passed; destruct payload; cbn; congruence).
  pose proof (buildRequest_reads
                (forwarded (toUpperCase m) endpointUrl headers
                   (orDefault qsParams VNull) passed
                   (VStr REQUEST_STREAM_TYPE) VNull)
                (VStr (toUpperCase m)) endpointUrl passed
                headers VUndefined (VStr REQUEST_STREAM_TYPE) VNull
                eq_refl eq_refl eq_refl eq_refl eq_refl eq_refl eq_refl) as Hb.
  cbn [truthy andb negb] in Hb. rewrite andb_false_r in Hb. cbn [andb] in Hb.
  cbn [orDefault] in Hb.
  assert (Hok : forall d,
             (if strictEqStr (VStr (toUpperCase m)) "POST" && truthy passed
              then
                if (typeof passed =? "object")%string then Ok passed
                else match passed with
                     | VStr s => match JSON_parse s with
                                 | inl v => Ok v
                                 | inr msg => Throw (SyntaxError msg)
                                 end
                     | _ => Throw (Error "Unexpected payload value")
                     end
              else Ok VUndefined) = Ok d ->
             sendRequest
               (forwarded (toUpperCase m) endpointUrl headers
                  (orDefault qsParams VNull) passed (VStr REQUEST_STREAM_TYPE) VNull) w
             = (Throw TypeError, w)).
  { intros d Hd. rewrite Hd in Hb. cbn [bind] in Hb.
    rewrite (sendRequest_built _ _ _ _ w Hb).
    apply dispatch_without_file; [|discriminate].
    cbn. apply String.eqb_refl. }
  assert (Hbad : forall e,
             (if strictEqStr (VStr (toUpperCase m)) "POST" && truthy passed
              then
                if (typeof passed =? "object")%string then Ok passed
                else match passed with
                     | VStr s => match JSON_parse s with
                                 | inl v => Ok v
                                 | inr msg => Throw (SyntaxError msg)
                                 end
                     | _ => Throw (Error "Unexpected payload value")
                     end
              else Ok VUndefined) = Throw e ->
             sendRequest
               (forwarded (toUpperCase m) endpointUrl headers
                  (orDefault qsParams VNull) passed (VStr REQUEST_STREAM_TYPE) VNull) w
             = (Throw e, w)).
  { intros e He. rewrite He in Hb. cbn [bind] in Hb.
    apply (sendRequest_not_built _ _ w Hb). }
  clear Hb. cbn [strictEqStr] in Hok, Hbad. rewrite Htr in Hok, Hbad.
  split; [|split].
  - intros Hcase.
    destruct (toUpperCase m =? "POST")%string eqn:Hpost;
      [|apply (Hok VUndefined); reflexivity].
    destruct (truthy payload) eqn:Hpay;
      [|apply (Hok VUndefined); reflexivity].
    cbn [andb] in Hok. rewrite (Hsame eq_refl) in Hok |- *.
    destruct Hcase as [Hne|[Hfalse|[Hpo|(s & v & -> & Hv)]]].
    + apply String.eqb_eq in Hpost. contradiction.
    + discriminate Hfalse.
    + apply (Hok payload). apply String.eqb_eq in Hpo. now rewrite Hpo.
    + apply (Hok v). cbn [typeof String.eqb Ascii.eqb Bool.eqb]. now rewrite Hv.
  - intros Hpost s msg -> Hne Hv.
    apply String.eqb_eq in Hpost. rewrite Hpost in Hbad.
    assert (Hpay : truthy (VStr s) = true).
    { cbn. destruct (String.eqb_spec s ""); [congruence | reflexivity]. }
    rewrite Hpay in Hbad. rewrite (Hsame Hpay) in Hbad |- *. cbn [andb] in Hbad.
    apply Hbad. cbn [typeof String.eqb Ascii.eqb Bool.eqb]. now rewrite Hv.
  - intros Hpost Hpay Hno Hns.
    apply String.eqb_eq in Hpost. rewrite Hpost in Hbad.
    rewrite Hpay in Hbad. rewrite (Hsame Hpay) in Hbad |- *. cbn [andb] in Hbad.
    apply Hbad. apply String.eqb_neq in Hno. rewrite Hno.
    destruct payload; try reflexivity. cbn in Hns. congruence.
Qed.

(** ** downloadFile, before anything is done *)

(** X12. [downloadFile] checks the extension before it does anything
    else.  An extension that is a string whose trimmed form is not in the
    allow-list gets the [RangeError] that quotes it and the list; an
    extension that is not a string gets a [TypeError]; either way no
    directory has been created, no write stream opened and no request
    sent. *)
Theorem downloadFile_checks_first
  (fileUrl headers fileName fileExtension toSavePath addTimestamp : value)
  (w : world) :
  (forall s, fileExtension = VStr s ->
     existsb (fun v => strictEqStr v (trim s)) API_EXTRACTION_FILE_FORMATS = false ->
     downloadFile fileUrl headers fileName fileExtension toSavePath addTimestamp w
     = (Throw (RangeError ("Option value " ++ s
                           ++ " is not within the allowed options: "
                           ++ toStr (VArr API_EXTRACTION_FILE_FORMATS))), w)) /\
  ((forall s, fileExtension <> VStr s) ->
   downloadFile fileUrl headers fileName fileExtension toSavePath addTimestamp w
   = (Throw TypeError, w)).
Proof.
  split.
  - intros s -> Hno. unfold downloadFile, validateOption. rewrite Hno. reflexivity.
  - intros Hno. unfold downloadFile, validateOption.
    destruct fileExtension; try reflexivity. destruct (Hno s eq_refl).
Qed.

End Helper.

(** * The module on the demo installation *)

Local Notation "'demoSend'" :=
  (sendRequest Demo.noProxy "json" "stream" Demo.parse Demo.accepting Demo.noStream Demo.createError).
Local Notation "'demoApi'" :=
  (apiSendRequest Demo.noProxy "json" "stream" Demo.parse Demo.accepting
     Demo.noStream Demo.createError).
Local Notation "'demoDownload'" :=
  (downloadFile Demo.noProxy "json" "stream" Demo.formats Demo.parse Demo.accepting
     Demo.noStream Demo.createError Demo.pathJoin Demo.clock).

Example maskWord_doc : maskWord "abcdefghijkl" None = "########ijkl".
Proof. reflexivity. Qed.

Example maskWord_punctuation : maskWord "ab-cd_ef.9876" None = "##-##_##.9876".
Proof. reflexivity. Qed.

Example split_examples :
  split "a,,b" "," = ["a"; ""; "b"] /\ split ",a," "," = [""; "a"; ""] /\
  split "aXXbXXXc" "XX" = ["a"; "b"; "Xc"] /\ split "" "," = [""] /\
  split "abc" "" = ["a"; "b"; "c"] /\ split "" "" = [].
Proof. repeat split. Qed.

Example validateOption_examples :
  validateOption (VStr "x") [VStr "a"; VStr "b"]
  = Throw (RangeError "Option value x is not within the allowed options: a,b") /\
  validateOption (VStr "a") [VStr "a"; VStr "b"] = Ok (VStr "a").
Proof. split; reflexivity. Qed.

(** The cases of the test suite for [getProxyConfiguration].  The code
    looks for the two keys, not at their values: with blank credentials, as
    the suite assigns them, the [auth] property is there. *)
Example proxy_disabled :
  getProxyConfiguration (Demo.testConfig false "" "") = VNull.
Proof. reflexivity. Qed.

Example proxy_with_credentials :
  field (getProxyConfiguration (Demo.testConfig true "demo" "demo")) "auth"
  = VObj [("username", VStr "demo"); ("password", VStr "demo")].
Proof. reflexivity. Qed.

Example proxy_blank_credentials :
  field (getProxyConfiguration (Demo.testConfig true "" "")) "auth"
  = VObj [("username", VStr ""); ("password", VStr "")].
Proof. reflexivity. Qed.

Example proxy_lookup_fails :
  getProxyConfiguration (VObj [("userKey", VStr "k")]) = VNull /\
  getProxyConfiguration VUndefined = VNull.
Proof. split; reflexivity. Qed.

Example proxy_auth_null :
  getProxyConfiguration
    (VObj [("proxy", VObj [("use", VBool true); ("host", VStr "h"); ("auth", VNull)])])
  = VObj [("protocol", VStr ""); ("host", VStr "h"); ("port", VStr "")].
Proof. reflexivity. Qed.

(** ** The dispatcher's catch, on a 404 with one vendor error *)



(** ** Query parameters *)

Lemma sendRequest_qsParams_witness :
  fst (demoSend (VObj [("method", VStr "GET"); ("endpointUrl", Demo.endpoint);
                       ("qsParams", VStr "limit=10")]) Demo.emptyWorld)
  = Throw (ReferenceError "Unexpected qsParams value").
Proof.
  apply (proj2 (sendRequest_qsParams Demo.noProxy "json" "stream" Demo.parse
                  Demo.accepting Demo.noStream Demo.createError
                  (VObj [("method", VStr "GET"); ("endpointUrl", Demo.endpoint);
                         ("qsParams", VStr "limit=10")])
                  (VStr "GET") (VStr "limit=10") Demo.emptyWorld eq_refl eq_refl)).
  repeat split; discriminate.
Defined.

(** Against C3 as the specification words it: a ['POST'] that carries
    query parameters is not refused; the request goes out with them. *)
Lemma sendRequest_post_keeps_qsParams :
  let options :=
    VObj [("method", VStr "POST"); ("endpointUrl", Demo.endpoint);
          ("headers", Demo.userKey); ("qsParams", VObj [("limit", VNum 10)])] in
  truthy (field options "qsParams") = true /\
  field options "method" <> VStr "GET" /\
  fst (demoSend options Demo.emptyWorld)
  <> Throw (ReferenceError "Unexpected qsParams value") /\
  demoSend options Demo.emptyWorld
  = (Ok Demo.okResponse,
     mkWorld [] []
       [VObj [("method", VStr "POST"); ("url", Demo.endpoint);
              ("params", VObj [("limit", VNum 10)]);
              ("headers", Demo.userKey); ("responseType", VStr "json")]]).
Proof. cbv zeta. repeat split; try discriminate. Qed.

(** ** Payloads *)

Lemma sendRequest_payload_witness :
  demoSend (VObj [("method", VStr "POST"); ("endpointUrl", Demo.endpoint);
                  ("payload", VObj [("query", VStr "q")])]) Demo.emptyWorld
  = (Ok Demo.okResponse,
     mkWorld [] []
       [VObj [("method", VStr "POST"); ("url", Demo.endpoint);
              ("data", VObj [("query", VStr "q")]);
              ("responseType", VStr "json")]]) /\
  demoSend (VObj [("method", VStr "POST"); ("endpointUrl", Demo.endpoint);
                  ("payload", VStr "[1]")]) Demo.emptyWorld
  = (Ok Demo.okResponse,
     mkWorld [] []
       [VObj [("method", VStr "POST"); ("url", Demo.endpoint);
              ("data", VArr [VNum 1]); ("responseType", VStr "json")]]) /\
  demoSend (VObj [("method", VStr "POST"); ("endpointUrl", Demo.endpoint);
                  ("payload", VNum 7)]) Demo.emptyWorld
  = (Throw (Error "Unexpected payload value"), Demo.emptyWorld).
Proof.
  split; [|split].
  - rewrite (proj1 (proj1 (sendRequest_payload Demo.noProxy "json" "stream"
                             Demo.parse Demo.accepting Demo.noStream
                             Demo.createError
                             (VObj [("method", VStr "POST");
                                    ("endpointUrl", Demo.endpoint);
                                    ("payload", VObj [("query", VStr "q")])])
                             Demo.endpoint (VObj [("query", VStr "q")])
                             VUndefined VUndefined VUndefined VUndefined
                             Demo.emptyWorld
                             eq_refl eq_refl eq_refl eq_refl eq_refl eq_refl
                             eq_refl)
                      eq_refl eq_refl)).
    reflexivity.
  - rewrite (proj1 (proj1 (proj1 (proj2
               (sendRequest_payload Demo.noProxy "json" "stream"
                  Demo.parse Demo.accepting Demo.noStream Demo.createError
                  (VObj [("method", VStr "POST");
                         ("endpointUrl", Demo.endpoint);
                         ("payload", VStr "[1]")])
                  Demo.endpoint (VStr "[1]")
                  VUndefined VUndefined VUndefined VUndefined Demo.emptyWorld
                  eq_refl eq_refl eq_refl eq_refl eq_refl eq_refl eq_refl))
               "[1]" eq_refl ltac:(discriminate))
             (VArr [VNum 1]) eq_refl)).
    reflexivity.
  - apply (proj1 (proj2 (proj2
             (sendRequest_payload Demo.noProxy "json" "stream"
                Demo.parse Demo.accepting Demo.noStream Demo.createError
                (VObj [("method", VStr "POST");
                       ("endpointUrl", Demo.endpoint);
                       ("payload", VNum 7)])
                Demo.endpoint (VNum 7)
                VUndefined VUndefined VUndefined VUndefined Demo.emptyWorld
                eq_refl eq_refl eq_refl eq_refl eq_refl eq_refl eq_refl))));
      [reflexivity | discriminate | discriminate].
Defined.

(** Against C6 as the specification words it.  A payload that is there
    but falsy, here the number 0, is neither an object nor a string, and it
    is not refused: the request goes out without [data].  And the parse
    result of the string ['null'] is not used as the body: the request goes
    out without [data] as well. *)
Lemma sendRequest_payload_not_refused :
  demoSend (VObj [("method", VStr "POST"); ("endpointUrl", Demo.endpoint);
                  ("payload", VNum 0)]) Demo.emptyWorld
  = (Ok Demo.okResponse,
     mkWorld [] []
       [VObj [("method", VStr "POST"); ("url", Demo.endpoint);
              ("responseType", VStr "json")]]) /\
  fst (demoSend (VObj [("method", VStr "POST"); ("endpointUrl", Demo.endpoint);
                       ("payload", VNum 0)]) Demo.emptyWorld)
  <> Throw (Error "Unexpected payload value") /\
  Demo.parse "null" = inl VNull /\
  demoSend (VObj [("method", VStr "POST"); ("endpointUrl", Demo.endpoint);
                  ("payload", VStr "null")]) Demo.emptyWorld
  = (Ok Demo.okResponse,
     mkWorld [] []
       [VObj [("method", VStr "POST"); ("url", Demo.endpoint);
              ("responseType", VStr "json")]]).
Proof. repeat split. discriminate. Qed.

Example sendRequest_payload_examples :
  issued (snd (demoSend (VObj [("method", VStr "POST"); ("endpointUrl", Demo.endpoint);
                               ("payload", VObj [("query", VStr "q")])])
                 Demo.emptyWorld))
  = [VObj [("method", VStr "POST"); ("url", Demo.endpoint);
           ("data", VObj [("query", VStr "q")]); ("responseType", VStr "json")]] /\
  issued (snd (demoSend (VObj [("method", VStr "POST"); ("endpointUrl", Demo.endpoint);
                               ("payload", VStr "[1]")])
                 Demo.emptyWorld))
  = [VObj [("method", VStr "POST"); ("url", Demo.endpoint);
           ("data", VArr [VNum 1]); ("responseType", VStr "json")]] /\
  issued (snd (demoSend (VObj [("method", VStr "POST"); ("endpointUrl", Demo.endpoint);
                               ("payload", VStr "null")])
                 Demo.emptyWorld))
  = [VObj [("method", VStr "POST"); ("url", Demo.endpoint);
           ("responseType", VStr "json")]].
Proof. repeat split. Qed.

(** ** The checks of apiSendRequest *)

Lemma apiSendRequest_prechecks_witness :
  demoApi (VObj [("method", VStr "put"); ("endpointUrl", Demo.endpoint);
                 ("headers", Demo.userKey)]) Demo.emptyWorld
  = (Throw unexpectedMethod, Demo.emptyWorld).
Proof.
  pose proof
    (apiSendRequest_prechecks Demo.noProxy "json" "stream" Demo.parse Demo.accepting
       Demo.noStream Demo.createError
       (VObj [("method", VStr "put"); ("endpointUrl", Demo.endpoint);
              ("headers", Demo.userKey)])
       (VStr "put") Demo.userKey Demo.emptyWorld eq_refl eq_refl) as H.
  destruct H as (_ & _ & H & _).
  apply (proj1 (H eq_refl eq_refl "put" eq_refl)).
  unfold supported. cbn. intros [H1|[H1|H1]]; discriminate H1.
Defined.

(** Against C1 as the specification words it: an empty mapping for the
    headers does not raise the missing-headers error; the call goes
    through to the transport. *)
Lemma apiSendRequest_empty_mapping :
  let options :=
    VObj [("method", VStr "GET"); ("endpointUrl", Demo.endpoint);
          ("headers", VObj [])] in
  field options "headers" = VObj [] /\
  fst (demoApi options Demo.emptyWorld) <> Throw missingHeaders /\
  demoApi options Demo.emptyWorld
  = (Ok Demo.okResponse,
     mkWorld [] []
       [VObj [("method", VStr "GET"); ("url", Demo.endpoint);
              ("headers", VObj []); ("responseType", VStr "json")]]).
Proof. cbv zeta. repeat split; discriminate. Qed.

(** C2, where the code departs from it.  The caller's query parameters
    are put under the key [params]; [sendRequest] reads [qsParams], finds
    [undefined], and the request leaves without any query parameters. *)
Theorem apiSendRequest_drops_qsParams :
  let options :=
    VObj [("method", VStr "get"); ("endpointUrl", Demo.endpoint);
          ("headers", Demo.userKey); ("qsParams", VObj [("limit", VNum 10)])] in
  field options "qsParams" = VObj [("limit", VNum 10)] /\
  getProp (forwarded "GET" Demo.endpoint Demo.userKey (VObj [("limit", VNum 10)])
             VNull (VStr "json") VNull) "qsParams" = Ok VUndefined /\
  demoApi options Demo.emptyWorld
  = demoSend (forwarded "GET" Demo.endpoint Demo.userKey (VObj [("limit", VNum 10)])
                VNull (VStr "json") VNull) Demo.emptyWorld /\
  issued (snd (demoApi options Demo.emptyWorld))
  = [VObj [("method", VStr "GET"); ("url", Demo.endpoint);
           ("headers", Demo.userKey); ("responseType", VStr "json")]].
Proof. cbv zeta. repeat split. Qed.

(** ** downloadFile *)

Lemma downloadFile_join_unbound_witness :
  let run :=
    demoDownload (VStr "https://api.dowjones.com/alpha/files/part-0.csv")
      Demo.userKey (VStr "snapshot") (VStr "csv") (VStr "./downloads") VUndefined
      Demo.emptyWorld in
  fst run = Throw (ReferenceError "join is not defined") /\
  In "./downloads" (directories (snd run)) /\
  issued (snd run) = [] /\ writeStreams (snd run) = [].
Proof.
  exact (downloadFile_join_unbound Demo.noProxy "json" "stream" Demo.formats
           Demo.parse Demo.accepting Demo.noStream Demo.createError Demo.pathJoin Demo.clock
           (VStr "https://api.dowjones.com/alpha/files/part-0.csv")
           Demo.userKey (VStr "snapshot") VUndefined "csv" "./downloads"
           Demo.emptyWorld eq_refl).
Defined.

(** ** getProxyConfiguration *)

Lemma getProxyConfiguration_spec_witness :
  exists fields,
    getProxyConfiguration Demo.config = VObj fields /\
    assoc "host" fields = Some (VStr "proxy.local") /\
    assoc "auth" fields
    = Some (VObj [("username", VStr "demo"); ("password", VStr "demo")]).
Proof.
  destruct (proj2 (getProxyConfiguration_spec Demo.config)
              (field Demo.config "proxy") eq_refl) as [_ H].
  destruct (H eq_refl) as (fields & Hf & _ & Hhost & _ & Hauth & _).
  exists fields. split; [exact Hf|]. split; [exact Hhost|].
  apply (Hauth [("username", VStr "demo"); ("password", VStr "demo")] eq_refl).
  split; discriminate.
Defined.

(** * Further properties of the pure functions *)

(** ** validateOption *)

Lemma existsb_strictEqStr (lit : string) (options : list value) :
  existsb (fun v => strictEqStr v lit) options = true <-> In (VStr lit) options.
Proof.
  rewrite existsb_exists. split.
  - intros (v & Hin & Hv). destruct v; try discriminate.
    cbn in Hv. apply String.eqb_eq in Hv. subst. exact Hin.
  - intros Hin. exists (VStr lit). split; [exact Hin|].
    cbn. apply String.eqb_refl.
Qed.

(** X13. [validateOption] returns exactly when the option is a string
    whose trimmed form is one of the valid options, and what it returns is
    the option as it was passed, not trimmed.  A string that is not valid
    gets the [RangeError]; anything that is not a string a [TypeError]. *)
Theorem validateOption_cases (option : value) (validOptions : list value) :
  (forall r, validateOption option validOptions = Ok r <->
             r = option /\ exists s, option = VStr s /\ In (VStr (trim s)) validOptions) /\
  (forall s, option = VStr s -> ~ In (VStr (trim s)) validOptions ->
             exists msg, validateOption option validOptions = Throw (RangeError msg)) /\
  ((forall s, option <> VStr s) ->
   validateOption option validOptions = Throw TypeError).
Proof.
  unfold validateOption. split; [|split].
  - intros r. destruct option as [| |b|n| |s|l|ps];
      try (split; [discriminate | intros [_ (s' & H & _)]; discriminate]).
    destruct (existsb _ validOptions) eqn:Hex; cbn [negb].
    + apply existsb_strictEqStr in Hex. split.
      * intros H. inversion H; subst. split; [reflexivity|]. eauto.
      * intros [-> _]. reflexivity.
    + split; [discriminate|]. intros [_ (s' & H & Hin)]. inversion H; subst s'.
      apply existsb_strictEqStr in Hin. congruence.
  - intros s -> Hno.
    destruct (existsb _ validOptions) eqn:Hex; cbn [negb]; [|eauto].
    apply existsb_strictEqStr in Hex. contradiction.
  - intros Hno. destruct option; try reflexivity. destruct (Hno s eq_refl).
Qed.

Lemma validateOption_cases_witness :
  validateOption (VStr " csv ") Demo.formats = Ok (VStr " csv ").
Proof.
  apply (proj1 (validateOption_cases (VStr " csv ") Demo.formats)).
  split; [reflexivity|]. exists " csv ". split; [reflexivity|].
  cbn. auto.
Defined.

(** ** maskWord with any padding *)

Lemma substring_whole (s : string) : String.substring 0 (String.length s) s = s.
Proof. induction s as [|c s IH]; cbn; congruence. Qed.

Lemma substring_nothing (s : string) (n : nat) : String.substring n 0 s = "".
Proof.
  revert n; induction s as [|c s IH]; intros [|n]; cbn; auto.
Qed.

Lemma substring_append_left (x y : string) :
  String.substring 0 (String.length x) (x ++ y) = x.
Proof.
  induction x as [|c x IH]; cbn.
  - destruct y; reflexivity.
  - congruence.
Qed.

Lemma substring_append_right (x y : string) :
  String.substring (String.length x) (String.length y) (x ++ y) = y.
Proof.
  induction x as [|c x IH]; cbn.
  - apply substring_whole.
  - exact IH.
Qed.

Lemma replaceMasked_twice (s : string) :
  replaceMasked (replaceMasked s) = replaceMasked s.
Proof.
  unfold replaceMasked. induction s as [|c s IH]; cbn; [reflexivity|].
  rewrite IH. f_equal.
  destruct (maskPattern c) eqn:Hc; [reflexivity | now rewrite Hc].
Qed.

(** How many code units in front are masked. *)
Lemma maskWord_shape (word : string) (rightPadding : Z) :
  (4 < String.length word)%nat ->
  let len := String.length word in
  let front := Z.to_nat (Z.max 0 (Z.min (Z.of_nat len - rightPadding) (Z.of_nat len))) in
  (front <= len)%nat /\
  maskWord word (Some rightPadding) =
  replaceMasked (String.substring 0 front word)
  ++ String.substring front (len - front) word.
Proof.
  intros Hlen len front. split; [subst front len; lia|].
  unfold maskWord.
  destruct (Z.leb_spec (Z.of_nat (String.length word)) 4) as [Hle|_]; [lia|].
  fold len.
  assert (Hfront : Z.max 0 (Z.min (Z.of_nat len - rightPadding) (Z.of_nat len))
                   = Z.of_nat front) by (subst front; lia).
  unfold Js.substring. fold len.
  rewrite Hfront.
  replace (Z.max 0 (Z.min 0 (Z.of_nat len))) with 0 by lia.
  replace (Z.max 0 (Z.min (Z.of_nat len) (Z.of_nat len))) with (Z.of_nat len) by lia.
  replace (Z.min 0 (Z.of_nat front)) with 0 by lia.
  replace (Z.max 0 (Z.of_nat front)) with (Z.of_nat front) by lia.
  replace (Z.min (Z.of_nat front) (Z.of_nat len)) with (Z.of_nat front)
    by (subst front; lia).
  replace (Z.max (Z.of_nat front) (Z.of_nat len)) with (Z.of_nat len)
    by (subst front; lia).
  rewrite Z.sub_0_r, Nat2Z.id.
  replace (Z.to_nat 0) with 0%nat by reflexivity.
  replace (Z.to_nat (Z.of_nat len - Z.of_nat front)) with (len - front)%nat by lia.
  reflexivity.
Qed.

Lemma maskWord_short (word : string) (rightPadding : Z) :
  (String.length word <= 4)%nat -> maskWord word (Some rightPadding) = word.
Proof.
  intros H. unfold maskWord.
  destruct (Z.leb_spec (Z.of_nat (String.length word)) 4); [reflexivity|lia].
Qed.

Lemma maskWord_length (word : string) (rightPadding : Z) :
  String.length (maskWord word (Some rightPadding)) = String.length word.
Proof.
  destruct (Nat.le_gt_cases (String.length word) 4) as [H|H].
  - now rewrite maskWord_short.
  - destruct (maskWord_shape word rightPadding H) as [Hle ->].
    unfold replaceMasked.
    rewrite length_append, length_mapChars, !length_substring by lia. lia.
Qed.

(** X14. Whatever the padding, [maskWord] keeps the length of the word.
    A padding of the word's length or more masks nothing, and a padding of
    zero or less masks the whole word.  A word of at most four code units
    is returned as it is even when the padding is smaller than the word. *)
Theorem maskWord_any_padding (word : string) (rightPadding : Z) :
  String.length (maskWord word (Some rightPadding)) = String.length word /\
  ((4 < String.length word)%nat -> Z.of_nat (String.length word) <= rightPadding ->
   maskWord word (Some rightPadding) = word) /\
  ((4 < String.length word)%nat -> rightPadding <= 0 ->
   maskWord word (Some rightPadding) = replaceMasked word) /\
  ((String.length word <= 4)%nat -> maskWord word (Some rightPadding) = word).
Proof.
  split; [|split; [|split]].
  - apply maskWord_length.
  - intros H Hpad. destruct (maskWord_shape word rightPadding H) as [_ ->].
    replace (Z.to_nat _) with 0%nat by lia.
    rewrite Nat.sub_0_r, substring_whole.
    destruct word; reflexivity.
  - intros H Hpad. destruct (maskWord_shape word rightPadding H) as [_ ->].
    replace (Z.to_nat _) with (String.length word) by lia.
    rewrite Nat.sub_diag, substring_whole, substring_nothing.
    apply append_nil_r.
  - apply maskWord_short.
Qed.

Lemma maskWord_any_padding_witness :
  maskWord "abcdefghijkl" (Some 40) = "abcdefghijkl" /\
  maskWord "abcdefghijkl" (Some 0) = "############" /\
  maskWord "abcd" (Some 2) = "abcd".
Proof.
  split; [|split].
  - apply (proj1 (proj2 (maskWord_any_padding "abcdefghijkl" 40))); cbn; lia.
  - apply (proj1 (proj2 (proj2 (maskWord_any_padding "abcdefghijkl" 0))));
      cbn; lia.
  - apply (proj2 (proj2 (proj2 (maskWord_any_padding "abcd" 2)))). cbn; lia.
Defined.

(** X15. Masking a masked word changes nothing: the mask character is not
    itself masked, and the length, hence the part kept, is the same. *)
Theorem maskWord_idempotent (word : string) (rightPadding : option Z) :
  maskWord (maskWord word rightPadding) rightPadding = maskWord word rightPadding.
Proof.
  assert (H : forall p, maskWord (maskWord word (Some p)) (Some p)
                        = maskWord word (Some p)).
  { intros p.
    destruct (Nat.le_gt_cases (String.length word) 4) as [Hs|Hl].
    - rewrite !(maskWord_short word p Hs). reflexivity.
    - pose proof (maskWord_length word p) as Hlen.
      assert (Hl' : (4 < String.length (maskWord word (Some p)))%nat) by lia.
      destruct (maskWord_shape _ p Hl') as [_ Hagain].
      destruct (maskWord_shape word p Hl) as [Hle Hfirst].
      rewrite Hagain, Hlen. clear Hagain.
      set (front := Z.to_nat _) in *.
      rewrite Hfirst.
      set (masked := replaceMasked (String.substring 0 front word)).
      set (kept := String.substring front (String.length word - front) word).
      assert (Hm : String.length masked = front).
      { subst masked. unfold replaceMasked.
        rewrite length_mapChars. apply length_substring. lia. }
      assert (Hk : String.length kept = (String.length word - front)%nat).
      { subst kept. apply length_substring. lia. }
      rewrite <- Hm at 1. rewrite substring_append_left.
      rewrite <- Hm at 1. rewrite <- Hk. rewrite substring_append_right.
      subst masked. rewrite replaceMasked_twice. reflexivity. }
  destruct rightPadding as [p|]; [apply H|apply (H 4)].
Qed.

(** ** The tokens of multivalueToList *)

Lemma prefix_self_append (p x : string) : String.prefix p (p ++ x) = true.
Proof.
  induction p as [|c p IH]; cbn.
  - destruct x; reflexivity.
  - destruct (ascii_dec c c); [exact IH | congruence].
Qed.

Lemma occurs_prefix (sep a b : string) :
  String.prefix sep b = true -> occurs sep (a ++ b).
Proof.
  intros H. destruct (prefix_append _ _ H) as [rest ->].
  exists a, rest. reflexivity.
Qed.

(** The ways [cur ++ c] splits in two with a non-empty second part. *)
Lemma snoc_split (cur a b : string) (c : ascii) :
  cur ++ String c "" = a ++ b -> b <> "" ->
  (a = cur /\ b = String c "") \/
  (exists b', b' <> "" /\ cur = a ++ b' /\ b = b' ++ String c "").
Proof.
  revert a; induction cur as [|d cur IH]; intros a Heq Hb.
  - destruct a as [|x a]; cbn in Heq.
    + left. split; [reflexivity | congruence].
    + inversion Heq as [[Hx Hrest]].
      destruct a; cbn in Hrest; [subst b; congruence | discriminate].
  - destruct a as [|x a]; cbn in Heq.
    + right. exists (String d cur).
      split; [discriminate|]. split; [reflexivity|]. cbn. congruence.
    + inversion Heq as [[Hx Hrest]].
      destruct (IH a Hrest Hb) as [[-> ->] | (b' & Hb' & -> & ->)].
      * left. split; reflexivity.
      * right. exists b'. split; [exact Hb'|]. split; reflexivity.
Qed.

(** No token holds the separator: a token grows only past positions where
    the separator does not start. *)
Lemma splitFrom_tokens (sep : string) :
  sep <> "" ->
  forall (n : nat) (s cur : string),
    (String.length s <= n)%nat ->
    (forall a b, cur = a ++ b -> b <> "" -> String.prefix sep (b ++ s) = false) ->
    Forall (fun t => ~ occurs sep t) (splitFrom sep s 0 cur).
Proof.
  intros Hsep.
  assert (Hcur : forall s cur,
             (forall a b, cur = a ++ b -> b <> "" ->
                          String.prefix sep (b ++ s) = false) ->
             ~ occurs sep cur).
  { intros s cur Hinv (a & b & Heq).
    assert (Hp : String.prefix sep ((sep ++ b) ++ s) = true)
      by (rewrite append_assoc; apply prefix_self_append).
    rewrite (Hinv a (sep ++ b) Heq) in Hp; [discriminate|].
    destruct sep; [congruence | discriminate]. }
  induction n as [|n IH]; intros s cur Hn Hinv.
  - destruct s; [|cbn in Hn; lia]. cbn. constructor; [|constructor].
    apply (Hcur "" cur Hinv).
  - destruct s as [|c s]; [cbn; constructor; [apply (Hcur "" cur Hinv)|constructor]|].
    cbn [splitFrom].
    destruct (String.prefix sep (String c s)) eqn:Hp.
    + constructor; [apply (Hcur _ cur Hinv)|].
      destruct (prefix_append _ _ Hp) as [rest Hrest].
      destruct sep as [|d sep']; [congruence|].
      cbn in Hrest. injection Hrest as -> ->.
      cbn [String.length]. rewrite Nat.sub_succ, Nat.sub_0_r, splitFrom_skip.
      apply IH.
      * cbn in Hn. rewrite length_append in Hn. lia.
      * intros a b Heq Hb. destruct a; cbn in Heq; congruence.
    + apply IH; [cbn in Hn; lia|].
      intros a b Heq Hb.
      destruct (snoc_split _ _ _ _ Heq Hb) as [[-> ->] | (b' & Hb' & -> & ->)].
      * exact Hp.
      * rewrite append_assoc. apply (Hinv a b' eq_refl Hb').
Qed.

Lemma split_tokens (s sep : string) :
  sep <> "" -> Forall (fun t => ~ occurs sep t) (split s sep).
Proof.
  intros Hsep. unfold split.
  destruct (String.eqb_spec sep ""); [congruence|].
  apply (splitFrom_tokens sep Hsep (String.length s)); [lia|].
  intros a b Heq Hb. destruct a; cbn in Heq; congruence.
Qed.

(** A string without the separator is one token. *)
Lemma splitFrom_single (sep s cur : string) :
  (forall a b, s = a ++ b -> String.prefix sep b = false) ->
  splitFrom sep s 0 cur = [cur ++ s].
Proof.
  revert cur; induction s as [|c s IH]; intros cur Hno; cbn [splitFrom].
  - now rewrite append_nil_r.
  - rewrite (Hno "" (String c s) eq_refl).
    rewrite IH.
    + now rewrite append_assoc.
    + intros a b ->. apply (Hno (String c a) b). reflexivity.
Qed.

(** X16. The tokens [multivalueToList] returns are never empty, and with
    a non-empty separator none of them holds the separator. *)
Theorem multivalueToList_tokens
  (fieldValue : value) (sep : option string) (tokens : list string) :
  multivalueToList fieldValue sep = Ok tokens ->
  Forall (fun t => t <> "") tokens /\
  (match sep with Some x => x | None => "," end <> "" ->
   Forall (fun t => ~ occurs (match sep with Some x => x | None => "," end) t)
     tokens).
Proof.
  unfold multivalueToList.
  set (separator := match sep with Some x => x | None => "," end).
  destruct (negb (truthy (orDefault fieldValue VNull))
            || strictEqStr (orDefault fieldValue VNull) "").
  - intros H. inversion H. split; [constructor | intros _; constructor].
  - destruct (orDefault fieldValue VNull); try discriminate.
    intros H. inversion H; subst tokens. clear H.
    rewrite fold_pushNonEmpty. cbn [app]. split.
    + apply Forall_forall. intros t Ht. apply filter_In in Ht.
      destruct Ht as [_ Ht]. unfold nonEmpty in Ht.
      apply negb_true_iff, String.eqb_neq in Ht. exact Ht.
    + intros Hsep. apply Forall_forall. intros t Ht. apply filter_In in Ht.
      destruct Ht as [Ht _].
      pose proof (split_tokens s separator Hsep) as Hall.
      rewrite Forall_forall in Hall. apply (Hall t Ht).
Qed.

Lemma multivalueToList_tokens_witness :
  Forall (fun t => t <> "") ["NAMZ"; "USA"] /\
  Forall (fun t => ~ occurs "," t) ["NAMZ"; "USA"].
Proof.
  destruct (multivalueToList_tokens (VStr "NAMZ,,USA,") None ["NAMZ"; "USA"] eq_refl)
    as [Hne Hsep].
  split; [exact Hne|]. apply Hsep. discriminate.
Defined.

(** X17. A non-empty string in which the separator does not occur comes
    back as the one-element list of itself. *)
Theorem multivalueToList_single (s sep : string) :
  s <> "" -> ~ occurs sep s ->
  multivalueToList (VStr s) (Some sep) = Ok [s].
Proof.
  intros Hs Hno.
  assert (Hsep : sep <> "").
  { intros ->. apply Hno. exists "", s. reflexivity. }
  unfold multivalueToList. cbn [orDefault truthy strictEqStr].
  destruct (String.eqb_spec s ""); [congruence|]. cbn [negb orb].
  unfold split. destruct (String.eqb_spec sep ""); [congruence|].
  rewrite splitFrom_single.
  - cbn. unfold pushNonEmpty.
    destruct (String.eqb_spec s ""); [congruence|]. reflexivity.
  - intros a b -> . destruct (String.prefix sep b) eqn:Hp; [|reflexivity].
    exfalso. apply Hno. apply occurs_prefix. exact Hp.
Qed.

Lemma multivalueToList_single_witness :
  multivalueToList (VStr "aapl") (Some " ") = Ok ["aapl"].
Proof.
  apply multivalueToList_single; [discriminate|].
  intros (a & b & H).
  destruct a as [|x [|y [|z [|u [|v a]]]]]; cbn in H; inversion H; subst;
    discriminate.
Defined.

(** * Further properties: records *)

(** ** Assignment to a property *)

Lemma assoc_setProp_same (ps : list (string * value)) (k : string) (v : value) :
  assoc k (setProp ps k v) = Some v.
Proof.
  induction ps as [|[k' x] ps IH]; cbn.
  - now rewrite String.eqb_refl.
  - destruct (String.eqb_spec k k') as [->|Hne]; cbn.
    + now rewrite String.eqb_refl.
    + destruct (String.eqb_spec k k'); [congruence | exact IH].
Qed.

Lemma assoc_setProp_other (ps : list (string * value)) (k k' : string) (v : value) :
  k' <> k -> assoc k' (setProp ps k v) = assoc k' ps.
Proof.
  intros Hne. induction ps as [|[k0 x] ps IH]; cbn.
  - destruct (String.eqb_spec k' k); [congruence | reflexivity].
  - destruct (String.eqb_spec k k0) as [->|Hk]; cbn.
    + destruct (String.eqb_spec k' k0); [congruence | reflexivity].
    + destruct (String.eqb_spec k' k0); [reflexivity | exact IH].
Qed.

Lemma keys_setProp_present (ps : list (string * value)) (k : string) (v : value) :
  includes k (map fst ps) = true -> map fst (setProp ps k v) = map fst ps.
Proof.
  unfold includes. induction ps as [|[k' x] ps IH]; cbn; [discriminate|].
  destruct (String.eqb_spec k k') as [->|Hne]; cbn; [reflexivity|].
  intros H. now rewrite IH.
Qed.

Lemma field_assoc (ps : list (string * value)) (k : string) (v : value) :
  assoc k ps = Some v -> field (VObj ps) k = v.
Proof. intros H. unfold field. cbn. now rewrite H. Qed.

Lemma includes_present (ps : list (string * value)) (k : string) (v : value) :
  assoc k ps = Some v -> includes k (map fst ps) = true.
Proof. intros H. apply includes_keys. congruence. Qed.

Lemma includes_absent (ps : list (string * value)) (k : string) :
  assoc k ps = None -> includes k (map fst ps) = false.
Proof.
  intros H. destruct (includes k (map fst ps)) eqn:Hi; [|reflexivity].
  apply includes_keys in Hi. congruence.
Qed.

(** ** formatMultivalues *)

Lemma splitFields_keys (sep : option string) (fields : list string)
  (message : list (string * value)) :
  map fst (snd (splitFields sep fields message)) = map fst message.
Proof.
  revert message; induction fields as [|name fields IH]; intros message;
    cbn [splitFields]; [reflexivity|].
  destruct (includes name (map fst message)) eqn:Hi; [|apply IH].
  destruct (multivalueToList _ sep); [|reflexivity].
  rewrite IH. apply keys_setProp_present. exact Hi.
Qed.

Lemma splitFields_other (sep : option string) (fields : list string)
  (message : list (string * value)) (k : string) :
  ~ In k fields ->
  assoc k (snd (splitFields sep fields message)) = assoc k message.
Proof.
  revert message; induction fields as [|name fields IH]; intros message Hk;
    cbn [splitFields]; [reflexivity|].
  assert (Hne : k <> name) by (intros ->; apply Hk; now left).
  assert (Hrest : ~ In k fields) by (intros H; apply Hk; now right).
  destruct (includes name (map fst message)); [|apply IH; exact Hrest].
  destruct (multivalueToList _ sep); [|reflexivity].
  rewrite IH by exact Hrest. apply assoc_setProp_other. exact Hne.
Qed.

(** A loop that ends well has turned every listed field it found into the
    array of its tokens. *)
Lemma splitFields_converted (sep : option string) (fields : list string) :
  forall (message : list (string * value)) (name : string) (v : value),
    fst (splitFields sep fields message) = Ok tt ->
    In name fields ->
    assoc name message = Some v ->
    exists tokens,
      multivalueToList v sep = Ok tokens /\
      assoc name (snd (splitFields sep fields message))
      = Some (VArr (map VStr tokens)).
Proof.
  induction fields as [|head fields IH]; intros message name v Hok Hin Hv;
    [destruct Hin|].
  cbn [splitFields] in *.
  destruct (string_dec head name) as [->|Hne].
  - rewrite (includes_present _ _ _ Hv) in *.
    rewrite (field_assoc _ _ _ Hv) in *.
    destruct (multivalueToList v sep) as [tokens|e]; [|discriminate].
    exists tokens. split; [reflexivity|].
    destruct (in_dec string_dec name fields) as [Hagain|Hnot].
    + destruct (IH _ name _ Hok Hagain (assoc_setProp_same message name _))
        as (tokens' & Habs & _).
      discriminate Habs.
    + rewrite splitFields_other by exact Hnot. apply assoc_setProp_same.
  - destruct Hin as [Heq|Hin]; [congruence|].
    destruct (includes head (map fst message)).
    + destruct (multivalueToList _ sep) as [tokens|e]; [|discriminate].
      apply (IH _ name v Hok Hin).
      rewrite assoc_setProp_other by congruence. exact Hv.
    + apply (IH _ name v Hok Hin Hv).
Qed.

(** A loop that ends well leaves an array where it found one. *)
Lemma splitFields_array_kept (sep : option string) (fields : list string)
  (message : list (string * value)) (name : string) (elems : list value) :
  fst (splitFields sep fields message) = Ok tt ->
  assoc name message = Some (VArr elems) ->
  assoc name (snd (splitFields sep fields message)) = Some (VArr elems).
Proof.
  intros Hok Hv.
  destruct (in_dec string_dec name fields) as [Hin|Hnot].
  - destruct (splitFields_converted sep fields message name _ Hok Hin Hv)
      as (tokens & Habs & _).
    discriminate Habs.
  - rewrite splitFields_other by exact Hnot. exact Hv.
Qed.

Lemma splitFields_nothing_present (sep : option string) (fields : list string)
  (message : list (string * value)) :
  (forall name, In name fields -> assoc name message = None) ->
  splitFields sep fields message = (Ok tt, message).
Proof.
  induction fields as [|head fields IH]; intros Hnone; cbn [splitFields];
    [reflexivity|].
  rewrite (includes_absent _ _ (Hnone head (or_introl eq_refl))).
  apply IH. intros name Hin. apply Hnone. now right.
Qed.

(** The loop stops with a [TypeError] at the first listed field it finds,
    when the listed fields it can find all hold arrays. *)
Lemma splitFields_on_arrays (sep : option string) (fields : list string)
  (message : list (string * value)) :
  (forall name v, In name fields -> assoc name message = Some v ->
                  exists elems, v = VArr elems) ->
  (exists name, In name fields /\ assoc name message <> None) ->
  fst (splitFields sep fields message) = Throw TypeError.
Proof.
  induction fields as [|head fields IH]; intros Harr (name & Hin & Hpresent);
    [destruct Hin|].
  cbn [splitFields].
  destruct (assoc head message) as [v|] eqn:Hv.
  - rewrite (includes_present _ _ _ Hv), (field_assoc _ _ _ Hv).
    destruct (Harr head v (or_introl eq_refl) Hv) as [elems ->]. reflexivity.
  - rewrite (includes_absent _ _ Hv). apply IH.
    + intros name' v' Hin' Hv'. apply (Harr name' v'); [now right | exact Hv'].
    + exists name. split; [|exact Hpresent].
      destruct Hin as [->|Hin]; [congruence | exact Hin].
Qed.

Lemma present_or_not (fields : list string) (message : list (string * value)) :
  (forall name, In name fields -> assoc name message = None) \/
  (exists name, In name fields /\ assoc name message <> None).
Proof.
  induction fields as [|head fields [IH|(name & Hin & Hp)]].
  - left. intros name [].
  - destruct (assoc head message) eqn:Hv.
    + right. exists head. split; [now left | congruence].
    + left. intros name [<-|Hin]; [exact Hv | apply IH; exact Hin].
  - right. exists name. split; [now right | exact Hp].
Qed.

Section FormatMultivalues.

Variable MULTIVALUE_FIELDS_SPACE : list string.
Variable MULTIVALUE_FIELDS_COMMA : list string.

(** X18. Whether it returns or throws, [formatMultivalues] leaves the
    message with the same properties in the same order, and with the same
    value in every property that is in neither list. *)
Theorem formatMultivalues_keeps (message : list (string * value)) :
  let after :=
    snd (formatMultivalues MULTIVALUE_FIELDS_SPACE MULTIVALUE_FIELDS_COMMA message) in
  map fst after = map fst message /\
  (forall k, ~ In k MULTIVALUE_FIELDS_SPACE -> ~ In k MULTIVALUE_FIELDS_COMMA ->
             assoc k after = assoc k message).
Proof.
  cbv zeta. unfold formatMultivalues.
  pose proof (splitFields_keys (Some " ") MULTIVALUE_FIELDS_SPACE message) as Hk1.
  pose proof (splitFields_other (Some " ") MULTIVALUE_FIELDS_SPACE message) as Ho1.
  destruct (splitFields (Some " ") MULTIVALUE_FIELDS_SPACE message)
    as [[[]|e] message1]; cbn [snd] in *.
  - split.
    + rewrite splitFields_keys. exact Hk1.
    + intros k Hs Hc. rewrite splitFields_other by exact Hc. apply Ho1. exact Hs.
  - split; [exact Hk1|]. intros k Hs _. apply Ho1. exact Hs.
Qed.

(** X19. When [formatMultivalues] returns, every property named in the
    space list holds the array of the tokens of its old value split at
    spaces, and every property named only in the comma list the array of
    the tokens of its old value split at commas. *)
Theorem formatMultivalues_converts (message after : list (string * value)) :
  formatMultivalues MULTIVALUE_FIELDS_SPACE MULTIVALUE_FIELDS_COMMA message
  = (Ok tt, after) ->
  (forall name v, In name MULTIVALUE_FIELDS_SPACE -> assoc name message = Some v ->
     exists tokens,
       multivalueToList v (Some " ") = Ok tokens /\
       assoc name after = Some (VArr (map VStr tokens))) /\
  (forall name v, In name MULTIVALUE_FIELDS_COMMA ->
     ~ In name MULTIVALUE_FIELDS_SPACE -> assoc name message = Some v ->
     exists tokens,
       multivalueToList v None = Ok tokens /\
       assoc name after = Some (VArr (map VStr tokens))).
Proof.
  unfold formatMultivalues.
  destruct (splitFields (Some " ") MULTIVALUE_FIELDS_SPACE message)
    as [[[]|e] message1] eqn:H1; [|discriminate].
  intros H2.
  assert (Hok1 : fst (splitFields (Some " ") MULTIVALUE_FIELDS_SPACE message) = Ok tt)
    by (rewrite H1; reflexivity).
  assert (Hok2 : fst (splitFields None MULTIVALUE_FIELDS_COMMA message1) = Ok tt)
    by (rewrite H2; reflexivity).
  assert (Hm1 : message1 = snd (splitFields (Some " ") MULTIVALUE_FIELDS_SPACE message))
    by (rewrite H1; reflexivity).
  assert (Ha : after = snd (splitFields None MULTIVALUE_FIELDS_COMMA message1))
    by (rewrite H2; reflexivity).
  split.
  - intros name v Hin Hv.
    destruct (splitFields_converted _ _ _ name v Hok1 Hin Hv) as (tokens & Ht & Hset).
    exists tokens. split; [exact Ht|].
    rewrite Ha. apply splitFields_array_kept; [exact Hok2|].
    rewrite Hm1. exact Hset.
  - intros name v Hin Hnot Hv.
    assert (Hv1 : assoc name message1 = Some v).
    { rewrite Hm1, splitFields_other by exact Hnot. exact Hv. }
    destruct (splitFields_converted _ _ _ name v Hok2 Hin Hv1) as (tokens & Ht & Hset).
    exists tokens. split; [exact Ht|]. rewrite Ha. exact Hset.
Qed.

(** X20. [formatMultivalues] cannot be applied to its own result: when
    it has returned on a message that has at least one of the listed
    properties, applying it again to that message throws a [TypeError],
    because an array has no [split]. *)
Theorem formatMultivalues_twice (message after : list (string * value)) :
  formatMultivalues MULTIVALUE_FIELDS_SPACE MULTIVALUE_FIELDS_COMMA message
  = (Ok tt, after) ->
  (exists name,
     (In name MULTIVALUE_FIELDS_SPACE \/ In name MULTIVALUE_FIELDS_COMMA) /\
     assoc name message <> None) ->
  fst (formatMultivalues MULTIVALUE_FIELDS_SPACE MULTIVALUE_FIELDS_COMMA after)
  = Throw TypeError.
Proof.
  intros Hrun (name & Hlisted & Hpresent).
  pose proof Hrun as Hrun'.
  unfold formatMultivalues in Hrun'.
  destruct (splitFields (Some " ") MULTIVALUE_FIELDS_SPACE message)
    as [[[]|e] message1] eqn:H1; [|discriminate].
  assert (Hok1 : fst (splitFields (Some " ") MULTIVALUE_FIELDS_SPACE message) = Ok tt)
    by (rewrite H1; reflexivity).
  assert (Hok2 : fst (splitFields None MULTIVALUE_FIELDS_COMMA message1) = Ok tt)
    by (rewrite Hrun'; reflexivity).
  assert (Hm1 : message1 = snd (splitFields (Some " ") MULTIVALUE_FIELDS_SPACE message))
    by (rewrite H1; reflexivity).
  assert (Ha : after = snd (splitFields None MULTIVALUE_FIELDS_COMMA message1))
    by (rewrite Hrun'; reflexivity).
  assert (Hkeys : forall k, assoc k after <> None <-> assoc k message <> None).
  { intros k. rewrite <- !includes_keys.
    rewrite Ha, splitFields_keys, Hm1, splitFields_keys. reflexivity. }
  assert (Harrays : forall k v,
             In k MULTIVALUE_FIELDS_SPACE \/ In k MULTIVALUE_FIELDS_COMMA ->
             assoc k after = Some v -> exists elems, v = VArr elems).
  { intros k v Hk Hv.
    assert (Hkm : assoc k message <> None) by (apply Hkeys; congruence).
    destruct (assoc k message) as [v0|] eqn:Hv0; [|congruence].
    destruct (in_dec string_dec k MULTIVALUE_FIELDS_SPACE) as [Hs|Hns].
    - destruct (splitFields_converted _ _ _ k v0 Hok1 Hs Hv0) as (tokens & _ & Hset).
      rewrite <- Hm1 in Hset.
      rewrite Ha, (splitFields_array_kept _ _ _ _ _ Hok2 Hset) in Hv.
      inversion Hv. eauto.
    - destruct Hk as [Hs|Hc]; [contradiction|].
      assert (Hv1 : assoc k message1 = Some v0).
      { rewrite Hm1, splitFields_other by exact Hns. exact Hv0. }
      destruct (splitFields_converted _ _ _ k v0 Hok2 Hc Hv1) as (tokens & _ & Hset).
      rewrite <- Ha in Hset. rewrite Hset in Hv. inversion Hv. eauto. }
  unfold formatMultivalues.
  destruct (present_or_not MULTIVALUE_FIELDS_SPACE after) as [Hnone|Hsome].
  - rewrite (splitFields_nothing_present _ _ _ Hnone).
    apply splitFields_on_arrays.
    + intros k v Hk Hv. apply (Harrays k v); [now right | exact Hv].
    + exists name. split; [|apply Hkeys; exact Hpresent].
      destruct Hlisted as [Hs|Hc]; [|exact Hc].
      exfalso. apply (proj2 (Hkeys name) Hpresent). apply Hnone. exact Hs.
  - assert (Hthrow : fst (splitFields (Some " ") MULTIVALUE_FIELDS_SPACE after)
                     = Throw TypeError).
    { apply splitFields_on_arrays; [|exact Hsome].
      intros k v Hk Hv. apply (Harrays k v); [now left | exact Hv]. }
    destruct (splitFields (Some " ") MULTIVALUE_FIELDS_SPACE after) as [[[]|e] m'];
      cbn in Hthrow; [discriminate|]. cbn. exact Hthrow.
Qed.

End FormatMultivalues.

(** ** formatTimestamps *)

Section FormatTimestamps.

Variable TIMESTAMP_FIELDS : list string.
Variable epochSeconds : value -> value.
Variable clockSeconds : nat -> value.

Lemma stampFields_reads (fields : list string) (message : list (string * value))
  (reads : nat) :
  snd (stampFields epochSeconds clockSeconds fields message reads)
  = (reads + List.length fields)%nat.
Proof.
  revert message reads; induction fields as [|name fields IH]; intros message reads;
    cbn [stampFields List.length]; [cbn; lia|].
  rewrite IH. lia.
Qed.

Lemma stampFields_delivery (fields : list string) :
  fields <> [] ->
  forall (message : list (string * value)) (reads : nat),
    assoc "delivery_datetime"
      (fst (stampFields epochSeconds clockSeconds fields message reads))
    = Some (clockSeconds (reads + List.length fields - 1)).
Proof.
  induction fields as [|name fields IH]; intros Hne message reads; [congruence|].
  cbn [stampFields].
  destruct fields as [|next fields].
  - cbn [stampFields fst List.length]. rewrite assoc_setProp_same.
    do 2 f_equal. lia.
  - rewrite IH by discriminate. cbn [List.length]. do 2 f_equal. lia.
Qed.

Lemma stampFields_other (fields : list string) (k : string) :
  ~ In k fields -> k <> "delivery_datetime" ->
  forall (message : list (string * value)) (reads : nat),
    assoc k (fst (stampFields epochSeconds clockSeconds fields message reads))
    = assoc k message.
Proof.
  induction fields as [|name fields IH]; intros Hk Hd message reads;
    cbn [stampFields]; [reflexivity|].
  assert (Hne : k <> name) by (intros ->; apply Hk; now left).
  rewrite IH by (auto; intros H; apply Hk; now right).
  rewrite assoc_setProp_other by exact Hd.
  destruct (includes name (map fst message)); [|reflexivity].
  apply assoc_setProp_other. exact Hne.
Qed.

Lemma stampFields_absent (fields : list string) (k : string) :
  k <> "delivery_datetime" ->
  forall (message : list (string * value)) (reads : nat),
    assoc k message = None ->
    assoc k (fst (stampFields epochSeconds clockSeconds fields message reads))
    = None.
Proof.
  intros Hd. induction fields as [|name fields IH]; intros message reads Hv;
    cbn [stampFields]; [exact Hv|].
  apply IH. rewrite assoc_setProp_other by exact Hd.
  destruct (includes name (map fst message)) eqn:Hi; [|exact Hv].
  rewrite assoc_setProp_other; [exact Hv|].
  intros ->. apply includes_keys in Hi. congruence.
Qed.

(** X21. [formatTimestamps] reads the clock once for every name in the
    list of timestamp fields, whether the message has that field or not.
    With an empty list the message is returned untouched, without any
    delivery time; otherwise [delivery_datetime] ends up holding the last
    of these readings. *)
Theorem formatTimestamps_delivery (message : list (string * value)) (reads : nat) :
  let run := formatTimestamps TIMESTAMP_FIELDS epochSeconds clockSeconds message reads in
  snd run = (reads + List.length TIMESTAMP_FIELDS)%nat /\
  (TIMESTAMP_FIELDS = [] -> fst run = message) /\
  (TIMESTAMP_FIELDS <> [] ->
   assoc "delivery_datetime" (fst run)
   = Some (clockSeconds (reads + List.length TIMESTAMP_FIELDS - 1))).
Proof.
  cbv zeta. unfold formatTimestamps. split; [apply stampFields_reads|]. split.
  - intros ->. reflexivity.
  - intros Hne. apply stampFields_delivery. exact Hne.
Qed.

(** X22. What [formatTimestamps] does to the other properties.  A
    property that is not a timestamp field keeps its value, and a timestamp
    field the message does not have is not added.  When the list names no
    field twice and does not name [delivery_datetime], a timestamp field the
    message has is converted once, from its old value. *)
Theorem formatTimestamps_fields (message : list (string * value)) (reads : nat) :
  let after :=
    fst (formatTimestamps TIMESTAMP_FIELDS epochSeconds clockSeconds message reads) in
  (forall k, ~ In k TIMESTAMP_FIELDS -> k <> "delivery_datetime" ->
             assoc k after = assoc k message) /\
  (forall k, k <> "delivery_datetime" -> assoc k message = None ->
             assoc k after = None) /\
  (NoDup TIMESTAMP_FIELDS -> ~ In "delivery_datetime" TIMESTAMP_FIELDS ->
   forall k v, In k TIMESTAMP_FIELDS -> assoc k message = Some v ->
               assoc k after = Some (isotsToMsts epochSeconds v)).
Proof.
  cbv zeta. unfold formatTimestamps. split; [|split].
  - intros k Hk Hd. apply stampFields_other; assumption.
  - intros k Hd Hv. apply stampFields_absent; assumption.
  - generalize reads. generalize message. clear message reads.
    induction TIMESTAMP_FIELDS as [|name fields IH];
      intros message reads Hnd Hdd k v Hin Hv; [destruct Hin|].
    inversion Hnd as [|? ? Hfresh Hnd']; subst.
    assert (Hdd' : ~ In "delivery_datetime" fields)
      by (intros H; apply Hdd; now right).
    assert (Hkd : k <> "delivery_datetime") by (intros ->; contradiction).
    cbn [stampFields].
    destruct Hin as [->|Hin].
    + rewrite stampFields_other by assumption.
      rewrite assoc_setProp_other by exact Hkd.
      rewrite (includes_present _ _ _ Hv), (field_assoc _ _ _ Hv).
      apply assoc_setProp_same.
    + apply (IH _ _ Hnd' Hdd' k v Hin).
      rewrite assoc_setProp_other by exact Hkd.
      destruct (includes name (map fst message)); [|exact Hv].
      rewrite assoc_setProp_other; [exact Hv|].
      intros ->. contradiction.
Qed.

End FormatTimestamps.

(** ** getCurrentDate *)





(** * The further properties on the demo installation *)

Lemma dispatch_rejected_without_response_witness :
  fst (dispatch "stream" (Demo.rejecting Demo.networkError) Demo.noStream Demo.createError
         (VObj [("method", VStr "GET"); ("url", Demo.endpoint)])
         (VStr "json") (VStr "./tmp.csv") Demo.emptyWorld)
  = Throw TypeError.
Proof.
  apply (dispatch_rejected_without_response "stream"
           (Demo.rejecting Demo.networkError) Demo.noStream Demo.createError
           (VObj [("method", VStr "GET"); ("url", Demo.endpoint)])
           (VStr "json") (VStr "./tmp.csv") Demo.networkError Demo.emptyWorld
           eq_refl).
  - intros Hstream. discriminate Hstream.
  - intros response H. cbn in H. inversion H. left. reflexivity.
Defined.

Lemma sendRequest_one_request_witness :
  snd (demoSend (VObj [("method", VStr "GET"); ("endpointUrl", Demo.endpoint);
                       ("qsParams", VStr "limit=10")]) Demo.emptyWorld)
  = Demo.emptyWorld.
Proof.
  exact (proj2 (proj2 (sendRequest_one_request Demo.noProxy "json" "stream"
                         Demo.parse Demo.accepting Demo.noStream Demo.createError
                         (VObj [("method", VStr "GET");
                                ("endpointUrl", Demo.endpoint);
                                ("qsParams", VStr "limit=10")])
                         Demo.emptyWorld))
           (ReferenceError "Unexpected qsParams value") eq_refl).
Defined.

Lemma sendRequest_buffered_witness :
  demoSend (VObj [("method", VStr "GET"); ("endpointUrl", Demo.endpoint);
                  ("headers", Demo.userKey)]) Demo.emptyWorld
  = (Ok Demo.okResponse,
     mkWorld [] []
       [VObj [("method", VStr "GET"); ("url", Demo.endpoint);
              ("headers", Demo.userKey); ("responseType", VStr "json")]]).
Proof.
  exact (sendRequest_buffered Demo.noProxy "json" "stream" Demo.parse
           Demo.accepting Demo.noStream Demo.createError
           (VObj [("method", VStr "GET"); ("endpointUrl", Demo.endpoint);
                  ("headers", Demo.userKey)])
           (VObj [("method", VStr "GET"); ("url", Demo.endpoint);
                  ("headers", Demo.userKey); ("responseType", VStr "json")])
           (VStr "json") (VStr "./tmp.csv") Demo.okResponse Demo.emptyWorld
           eq_refl eq_refl eq_refl).
Defined.

Lemma sendRequest_streamed_witness :
  sendRequest Demo.noProxy "json" "stream" Demo.parse Demo.accepting Demo.broken Demo.createError
    (VObj [("method", VStr "GET"); ("endpointUrl", Demo.endpoint);
           ("headers", Demo.userKey); ("responseType", VStr "stream");
           ("fileName", VStr "./out.csv")]) Demo.emptyWorld
  = (Throw (Rejection VUndefined),
     mkWorld [] ["./out.csv"]
       [VObj [("method", VStr "GET"); ("url", Demo.endpoint);
              ("headers", Demo.userKey); ("responseType", VStr "stream")]]).
Proof.
  exact (proj2 (sendRequest_streamed Demo.noProxy "json" "stream" Demo.parse
                  Demo.accepting Demo.broken Demo.createError
                  (VObj [("method", VStr "GET"); ("endpointUrl", Demo.endpoint);
                         ("headers", Demo.userKey);
                         ("responseType", VStr "stream");
                         ("fileName", VStr "./out.csv")])
                  (VObj [("method", VStr "GET"); ("url", Demo.endpoint);
                         ("headers", Demo.userKey);
                         ("responseType", VStr "stream")])
                  (VStr "stream") Demo.okResponse (VObj []) "./out.csv"
                  Demo.emptyWorld eq_refl eq_refl eq_refl eq_refl)
           eq_refl).
Defined.

Lemma buildRequest_data_only_with_post_witness :
  assoc "data"
    [("method", VStr "DELETE"); ("url", Demo.endpoint);
     ("responseType", VStr "json")] = None.
Proof.
  apply (buildRequest_data_only_with_post Demo.noProxy "json" Demo.parse
           (VObj [("method", VStr "DELETE"); ("endpointUrl", Demo.endpoint);
                  ("payload", VObj [("query", VStr "q")])])
           (VStr "DELETE") _ (VStr "json") (VStr "./tmp.csv") eq_refl).
  - discriminate.
  - reflexivity.
Defined.

Lemma buildRequest_proxy_witness :
  assoc "proxy"
    [("method", VStr "GET"); ("url", Demo.endpoint);
     ("proxy", getProxyConfiguration Demo.config); ("responseType", VStr "json")]
  = Some (getProxyConfiguration Demo.config).
Proof.
  apply (proj2 (buildRequest_proxy Demo.config "json" Demo.parse
                  (VObj [("method", VStr "GET"); ("endpointUrl", Demo.endpoint)])
                  _ (VStr "json") (VStr "./tmp.csv") eq_refl)).
  discriminate.
Defined.

Lemma apiSendRequest_hands_over_witness :
  exists fields,
    demoApi (VObj [("method", VStr "post"); ("endpointUrl", Demo.endpoint);
                   ("headers", Demo.userKey);
                   ("payload", VObj [("query", VStr "q")])]) Demo.emptyWorld
    = dispatch "stream" Demo.accepting Demo.noStream Demo.createError (VObj fields) (VStr "json")
        VNull Demo.emptyWorld /\
    assoc "method" fields = Some (VStr "POST") /\
    assoc "url" fields = Some Demo.endpoint /\
    assoc "headers" fields = Some Demo.userKey /\
    assoc "params" fields = None /\
    assoc "data" fields = Some (VObj [("query", VStr "q")]).
Proof.
  apply (apiSendRequest_hands_over Demo.noProxy "json" "stream" Demo.parse
           Demo.accepting Demo.noStream Demo.createError
           (VObj [("method", VStr "post"); ("endpointUrl", Demo.endpoint);
                  ("headers", Demo.userKey);
                  ("payload", VObj [("query", VStr "q")])])
           Demo.endpoint Demo.userKey VUndefined (VObj [("query", VStr "q")])
           VUndefined VUndefined "post" Demo.emptyWorld
           eq_refl eq_refl eq_refl eq_refl eq_refl eq_refl eq_refl eq_refl eq_refl);
    try reflexivity.
  left. reflexivity.
Defined.

Lemma apiSendRequest_stream_without_fileName_witness :
  demoApi (VObj [("method", VStr "get"); ("endpointUrl", Demo.endpoint);
                 ("headers", Demo.userKey); ("responseType", VStr "stream")])
    Demo.emptyWorld
  = (Throw TypeError, Demo.emptyWorld) /\
  demoApi (VObj [("method", VStr "post"); ("endpointUrl", Demo.endpoint);
                 ("headers", Demo.userKey); ("payload", VNum 7);
                 ("responseType", VStr "stream")])
    Demo.emptyWorld
  = (Throw (Error "Unexpected payload value"), Demo.emptyWorld).
Proof.
  split.
  - apply (proj1 (apiSendRequest_stream_without_fileName Demo.noProxy "json"
                    "stream" Demo.parse Demo.accepting Demo.noStream
                    Demo.createError
                    (VObj [("method", VStr "get");
                           ("endpointUrl", Demo.endpoint);
                           ("headers", Demo.userKey);
                           ("responseType", VStr "stream")])
                    Demo.endpoint Demo.userKey VUndefined VUndefined
                    VUndefined "get" Demo.emptyWorld
                    eq_refl eq_refl eq_refl eq_refl eq_refl eq_refl eq_refl
                    eq_refl eq_refl (or_intror (or_introl eq_refl))
                    (or_introl eq_refl))).
    left. discriminate.
  - apply (proj2 (proj2 (apiSendRequest_stream_without_fileName Demo.noProxy
                    "json" "stream" Demo.parse Demo.accepting Demo.noStream
                    Demo.createError
                    (VObj [("method", VStr "post");
                           ("endpointUrl", Demo.endpoint);
                           ("headers", Demo.userKey); ("payload", VNum 7);
                           ("responseType", VStr "stream")])
                    Demo.endpoint Demo.userKey VUndefined (VNum 7)
                    VUndefined "post" Demo.emptyWorld
                    eq_refl eq_refl eq_refl eq_refl eq_refl eq_refl eq_refl
                    eq_refl eq_refl (or_introl eq_refl)
                    (or_introl eq_refl))));
      [reflexivity | reflexivity | discriminate | discriminate].
Defined.

Lemma downloadFile_checks_first_witness :
  demoDownload (VStr "https://api.dowjones.com/alpha/files/part-0.xml")
    Demo.userKey (VStr "snapshot") (VStr "xml") (VStr "./downloads") VUndefined
    Demo.emptyWorld
  = (Throw (RangeError
              "Option value xml is not within the allowed options: avro,json,csv"),
     Demo.emptyWorld).
Proof.
  exact (proj1 (downloadFile_checks_first Demo.noProxy "json" "stream" Demo.formats
                  Demo.parse Demo.accepting Demo.noStream Demo.createError Demo.pathJoin Demo.clock
                  (VStr "https://api.dowjones.com/alpha/files/part-0.xml")
                  Demo.userKey (VStr "snapshot") (VStr "xml") (VStr "./downloads")
                  VUndefined Demo.emptyWorld)
           "xml" eq_refl eq_refl).
Defined.

Lemma formatMultivalues_keeps_witness :
  assoc "an" (snd (formatMultivalues Demo.spaceFields Demo.commaFields Demo.article))
  = Some (VStr "DJDN000020240101").
Proof.
  rewrite (proj2 (formatMultivalues_keeps Demo.spaceFields Demo.commaFields
                    Demo.article) "an").
  - reflexivity.
  - cbn. intros [H|[H|[]]]; discriminate H.
  - cbn. intros [H|[]]; discriminate H.
Defined.

Lemma formatMultivalues_converts_witness :
  exists tokens,
    multivalueToList (VStr "aapl  msft ") (Some " ") = Ok tokens /\
    assoc "company_codes"
      [("an", VStr "DJDN000020240101");
       ("company_codes", VArr [VStr "aapl"; VStr "msft"]);
       ("region_of_origin", VArr [VStr "NAMZ"; VStr "USA"]);
       ("publication_datetime", VStr "2024-01-01T00:00:00Z")]
    = Some (VArr (map VStr tokens)).
Proof.
  apply (proj1 (formatMultivalues_converts Demo.spaceFields Demo.commaFields
                  Demo.article _ eq_refl) "company_codes" (VStr "aapl  msft ")).
  - left. reflexivity.
  - reflexivity.
Defined.

Lemma formatMultivalues_twice_witness :
  fst (formatMultivalues Demo.spaceFields Demo.commaFields
         [("an", VStr "DJDN000020240101");
          ("company_codes", VArr [VStr "aapl"; VStr "msft"]);
          ("region_of_origin", VArr [VStr "NAMZ"; VStr "USA"]);
          ("publication_datetime", VStr "2024-01-01T00:00:00Z")])
  = Throw TypeError.
Proof.
  apply (formatMultivalues_twice Demo.spaceFields Demo.commaFields Demo.article _
           eq_refl).
  exists "company_codes". split; [left; left; reflexivity | discriminate].
Defined.

Lemma formatTimestamps_delivery_witness :
  assoc "delivery_datetime"
    (fst (formatTimestamps Demo.timestampFields Demo.seconds Demo.ticking
            Demo.article 0))
  = Some (Demo.ticking 2).
Proof.
  apply (proj2 (proj2 (formatTimestamps_delivery Demo.timestampFields Demo.seconds
                         Demo.ticking Demo.article 0))).
  discriminate.
Defined.

Lemma formatTimestamps_fields_witness :
  assoc "publication_datetime"
    (fst (formatTimestamps Demo.timestampFields Demo.seconds Demo.ticking
            Demo.article 0))
  = Some (VNum 1704067200).
Proof.
  apply (proj2 (proj2 (formatTimestamps_fields Demo.timestampFields Demo.seconds
                         Demo.ticking Demo.article 0))
           ltac:(repeat constructor; cbn; intuition discriminate)
           ltac:(cbn; intuition discriminate)
           "publication_datetime" (VStr "2024-01-01T00:00:00Z")).
  - left. reflexivity.
  - reflexivity.
Defined.
